(** * timezone-intel: request handlers of [src/index.ts]

    A shallow embedding of the six metered handlers registered with
    [addEntrypoint] (overview, current-time, convert, holidays, multi-zone,
    full-report) and of the helper [fetchJSON].

    - JavaScript values are the inductive [Value]; a handler returns the
      object [{ output: ... }], fields in the order of the object literal.
    - Numbers are integers ([VNum]) or [VNaN]; every number a handler
      computes itself (HTTP status, array length, year, day count) is one of
      the two, the day count because epoch milliseconds are integers that a
      double holds exactly and whose quotient by 86400000 rounds to the
      same ceiling.  Upstream numbers are only passed through.  A [year] in
      the input is an integer below 10^21 in magnitude, which a template
      literal prints in plain decimal.
    - Strings are sequences of 8-bit code units (ASCII text, or the bytes
      of UTF-8 text), compared code unit by code unit as JavaScript compares
      strings; [toUpperCase] maps the ASCII letters.
    - The network and the wall clock are a [World]: the answer to the n-th
      request issued, the instant at which it settles, and the value of the
      n-th reading of the clock.  Handlers run in the monad [M], which logs
      the requests issued and counts the clock readings.
    - The parts of the [Date] object and of the relational comparison that
      depend on the engine or on the server's time zone are the fields of a
      [Runtime]; [utc_runtime] is an instance for a server running in UTC. *)

From Stdlib Require Import ZArith String Ascii List Lia DecimalString.
From Stdlib Require DecimalZ DecimalPos.
From stdpp Require Import base list strings option.

Set Warnings "-register-all".

Local Open Scope string_scope.
Local Open Scope list_scope.
Local Open Scope Z_scope.

(** ** JavaScript values *)

Inductive Value : Type :=
| VUndefined
| VNull
| VBool (b : bool)
| VNum (z : Z)
| VNaN
| VStr (s : string)
| VArr (items : list Value)
| VObj (fields : list (string * Value)).

(** What a [throw] or a rejected promise carries. *)
Inductive Thrown : Type :=
| Error (message : string)        (* new Error(message) *)
| FetchFailure (reason : string)  (* fetch() rejected: network failure *)
| SyntaxError                     (* response.json() on a body that is not JSON *)
| TypeError (what : string).      (* property read on null/undefined, call of a non-function *)

(** A computation that either throws or yields a value. *)
Definition Result (A : Type) : Type := Thrown + A.

#[local] Instance Result_ret : MRet Result := fun A x => inr x.
#[local] Instance Result_bind : MBind Result := fun A B f r =>
  match r with
  | inl e => inl e
  | inr x => f x
  end.

Definition throw {A} (e : Thrown) : Result A := inl e.

(** [try { r } catch (e) { h e }] *)
Definition try_catch {A} (r : Result A) (h : Thrown -> Result A) : Result A :=
  match r with
  | inl e => h e
  | inr x => inr x
  end.

Definition is_nullish (v : Value) : bool :=
  match v with
  | VUndefined | VNull => true
  | _ => false
  end.

(** Own data property [k] of an object. *)
Fixpoint lookup_field (k : string) (fields : list (string * Value)) : Value :=
  match fields with
  | [] => VUndefined
  | (k', v) :: rest => if String.eqb k' k then v else lookup_field k rest
  end.

(** [v.k] for the property names the handlers read ([dateTime], [date],
    [length], ...): a TypeError on [null] and [undefined], the own property
    of an object, [length] of an array or a string, [undefined] otherwise. *)
Definition get (v : Value) (k : string) : Result Value :=
  match v with
  | VUndefined | VNull => throw (TypeError ("Cannot read properties of null or undefined: " +:+ k))
  | VObj fields => mret (lookup_field k fields)
  | VArr items => mret (if String.eqb k "length" then VNum (Z.of_nat (length items)) else VUndefined)
  | VStr s => mret (if String.eqb k "length" then VNum (Z.of_nat (String.length s)) else VUndefined)
  | VBool _ | VNum _ | VNaN => mret VUndefined
  end.

(** [v?.k] *)
Definition get_opt (v : Value) (k : string) : Result Value :=
  if is_nullish v then mret VUndefined else get v k.

(** [v.slice(0, n)]: arrays and strings have the method. *)
Definition slice0 (v : Value) (n : nat) : Result Value :=
  match v with
  | VArr items => mret (VArr (take n items))
  | VStr s => mret (VStr (substring 0 n s))
  | _ => throw (TypeError "slice is not a function")
  end.

(** The elements of [v] when [v.map] / [v.filter] can be called. *)
Definition array_items (method : string) (v : Value) : Result (list Value) :=
  match v with
  | VArr items => mret items
  | _ => throw (TypeError (method +:+ " is not a function"))
  end.

(** ** Strings *)

(** Decimal text of an integer, as a template literal prints it. *)
Definition decimal (z : Z) : string := NilZero.string_of_int (Z.to_int z).

Definition is_lower (c : ascii) : bool :=
  let n := nat_of_ascii c in (97 <=? n)%nat && (n <=? 122)%nat.

Definition upper_ascii (c : ascii) : ascii :=
  if is_lower c then ascii_of_nat (nat_of_ascii c - 32) else c.

(** [s.toUpperCase()] on the ASCII range; other code units are kept. *)
Fixpoint toUpperCase (s : string) : string :=
  match s with
  | EmptyString => EmptyString
  | String c rest => String (upper_ascii c) (toUpperCase rest)
  end.

Definition hex_digit (n : nat) : ascii :=
  if (n <? 10)%nat then ascii_of_nat (48 + n) else ascii_of_nat (55 + n).

(** Characters [encodeURIComponent] leaves alone: A-Z a-z 0-9 - _ . ! ~ * ' ( ) *)
Definition is_unreserved (c : ascii) : bool :=
  let n := nat_of_ascii c in
  ((65 <=? n) && (n <=? 90) || (97 <=? n) && (n <=? 122) || (48 <=? n) && (n <=? 57)
   || (n =? 45) || (n =? 95) || (n =? 46) || (n =? 33) || (n =? 126)
   || (n =? 42) || (n =? 39) || (n =? 40) || (n =? 41))%nat.

Fixpoint encodeURIComponent (s : string) : string :=
  match s with
  | EmptyString => EmptyString
  | String c rest =>
      if is_unreserved c then String c (encodeURIComponent rest)
      else
        let n := nat_of_ascii c in
        String "%" (String (hex_digit (n / 16)) (String (hex_digit (n mod 16))
          (encodeURIComponent rest)))
  end.

(** [s.split(sep)[0]]: the text before the first [sep] (all of [s] when
    there is none). *)
Fixpoint before_first (sep : ascii) (s : string) : string :=
  match s with
  | EmptyString => EmptyString
  | String c rest => if Ascii.eqb c sep then EmptyString else String c (before_first sep rest)
  end.

(** ** The outside world: upstream providers and the clock *)

Record Request : Type := {
  method : string;
  url : string;
  headers : list (string * string);
  body : option Value   (* the value handed to JSON.stringify *)
}.

Record Response : Type := {
  status : Z;
  payload : option Value   (* the body parsed as JSON; None when it is not JSON *)
}.

Inductive FetchOutcome : Type :=
| Unreachable (reason : string)
| Responded (r : Response).

Record World : Type := {
  respond : nat -> Request -> FetchOutcome;  (* answer to the n-th request issued *)
  settle : nat -> nat;                       (* instant at which that answer arrives *)
  clock : nat -> Z                           (* epoch milliseconds at the n-th reading *)
}.

(** [response.ok] *)
Definition ok (r : Response) : bool := (200 <=? status r) && (status r <=? 299).

(** [response.json()] *)
Definition json (r : Response) : Result Value :=
  match payload r with
  | Some v => mret v
  | None => throw SyntaxError
  end.

(** The engine- and zone-dependent parts of [Date] and of [>=]. *)
Record Runtime : Type := {
  getFullYear : Z -> Z;               (* new Date(t).getFullYear(), server-local *)
  toISOString : Z -> string;          (* new Date(t).toISOString() *)
  Date_getTime : Value -> option Z;   (* new Date(v).getTime(); None is NaN *)
  ge_coerced : Value -> string -> bool  (* v >= s for a v that is not a string *)
}.

(** [v >= s] with a string on the right: two strings are compared by code
    units, anything else goes through the engine's coercions. *)
Definition js_ge (rt : Runtime) (v : Value) (s : string) : bool :=
  match v with
  | VStr a => negb (String.ltb a s)
  | _ => ge_coerced rt v s
  end.

(** [Math.ceil(a / b)] for integers [a] and [b > 0]. *)
Definition ceil_div (a b : Z) : Z := - ((- a) / b).

Definition ms_per_day : Z := 1000 * 60 * 60 * 24.

(** [Math.ceil((new Date(d).getTime() - now) / (1000 * 60 * 60 * 24))] *)
Definition days_until (rt : Runtime) (d : Value) (now : Z) : Value :=
  match Date_getTime rt d with
  | Some t => VNum (ceil_div (t - now) ms_per_day)
  | None => VNaN
  end.

(** ** The handler monad *)

Record Trace : Type := {
  issued : list Request;  (* requests sent so far, oldest first *)
  reads : nat             (* clock readings so far *)
}.

Definition start : Trace := {| issued := []; reads := 0 |}.

Definition M (A : Type) : Type := Trace -> Result A * Trace.

#[local] Instance M_ret : MRet M := fun A x t => (inr x, t).
#[local] Instance M_bind : MBind M := fun A B f m t =>
  match m t with
  | (inl e, t') => (inl e, t')
  | (inr x, t') => f x t'
  end.

Definition lift {A} (r : Result A) : M A := fun t => (r, t).

(** A promise that has been created: when it settles and how. *)
Record Promise (A : Type) : Type := {
  settled_at : nat;
  outcome : Result A
}.
Arguments settled_at {A} _.
Arguments outcome {A} _.

(** [fetch(url, init)]: the request leaves at once, the promise settles with
    the world's answer. *)
Definition fetch (w : World) (req : Request) : M (Promise Response) := fun t =>
  let n := length (issued t) in
  (inr {| settled_at := settle w n;
          outcome := match respond w n req with
                     | Unreachable reason => throw (FetchFailure reason)
                     | Responded r => mret r
                     end |},
   {| issued := issued t ++ [req]; reads := reads t |}).

(** [await p] *)
Definition await {A} (p : Promise A) : M A := lift (outcome p).

(** The promise of an async function whose body awaits [p] once and then
    runs [k], which touches neither the network nor the clock. *)
Definition and_then {A B} (p : Promise A) (k : Result A -> Result B) : Promise B :=
  {| settled_at := settled_at p; outcome := k (outcome p) |}.

(** The rejection [Promise.all] reports: that of the input promise that
    rejects first (the earlier index on a tie). *)
Fixpoint first_rejection {A} (ps : list (Promise A)) : option (nat * Thrown) :=
  match ps with
  | [] => None
  | p :: rest =>
      match outcome p, first_rejection rest with
      | inl e, Some (t', e') =>
          if (settled_at p <=? t')%nat then Some (settled_at p, e) else Some (t', e')
      | inl e, None => Some (settled_at p, e)
      | inr _, r => r
      end
  end.

Fixpoint fulfilled {A} (ps : list (Promise A)) : list A :=
  match ps with
  | [] => []
  | p :: rest =>
      match outcome p with
      | inr x => x :: fulfilled rest
      | inl _ => fulfilled rest
      end
  end.

(** [Promise.all(ps)] *)
Definition Promise_all {A} (ps : list (Promise A)) : Promise (list A) :=
  match first_rejection ps with
  | Some (t, e) => {| settled_at := t; outcome := throw e |}
  | None => {| settled_at := foldr Nat.max 0%nat (settled_at <$> ps);
               outcome := mret (fulfilled ps) |}
  end.

(** Reading the clock: [new Date()] and [Date.now()]. *)
Definition now (w : World) : M Z := fun t =>
  (inr (clock w (reads t)), {| issued := issued t; reads := S (reads t) |}).

(** ** [fetchJSON] *)

Definition api_error (r : Response) : Thrown := Error ("API error: " +:+ decimal (status r)).

Definition get_request (u : string) : Request :=
  {| method := "GET"; url := u;
     headers := [("User-Agent", "timezone-intel/1.0")]; body := None |}.

Definition fetchJSON (w : World) (u : string) : M (Promise Value) :=
  p ← fetch w (get_request u);
  mret (and_then p (fun r =>
    response ← r;
    if negb (ok response) then throw (api_error response)
    else json response)).

(** ** The handlers *)

Record CurrentTimeInput : Type := { ct_timezone : string }.
Record ConvertInput : Type := { fromTimezone : string; toTimezone : string; dateTime : string }.
Record HolidaysInput : Type := { countryCode : string; year : option Z }.
Record MultiZoneInput : Type := { timezones : list string }.
Record FullReportInput : Type := { fr_timezone : string; fr_countryCode : string }.

(** [{ output: o }] *)
Definition output (o : Value) : Value := VObj [("output", o)].

Definition zones_url : string := "https://timeapi.io/api/timezone/availabletimezones".
Definition countries_url : string := "https://date.nager.at/api/v3/AvailableCountries".
Definition convert_url : string := "https://timeapi.io/api/conversion/converttimezone".

Definition zone_url (tz : string) : string :=
  "https://timeapi.io/api/time/current/zone?timeZone=" +:+ encodeURIComponent tz.

Definition holidays_url (y : Z) (code : string) : string :=
  "https://date.nager.at/api/v3/publicholidays/" +:+ decimal y +:+ "/" +:+ toUpperCase code.

Definition majorZones : list string :=
  [ "America/New_York"; "America/Los_Angeles"; "America/Chicago";
    "Europe/London"; "Europe/Paris"; "Europe/Berlin";
    "Asia/Tokyo"; "Asia/Shanghai"; "Asia/Singapore";
    "Australia/Sydney"; "Pacific/Auckland" ].

Definition endpoints : Value :=
  VObj [ ("current-time", VStr "Get current time in any timezone ($0.001)");
         ("convert", VStr "Convert time between timezones ($0.002)");
         ("holidays", VStr "Get holidays for country/year ($0.002)");
         ("multi-zone", VStr "Current time in multiple zones ($0.003)");
         ("full-report", VStr "Complete timezone report ($0.005)") ].

(** [const [a, b] = xs] *)
Definition item (xs : list Value) (i : nat) : Value := default VUndefined (xs !! i).

Section Handlers.
Context (rt : Runtime) (w : World).

(** key 'overview' *)
Definition overview_handler : M Value :=
  p1 ← fetchJSON w zones_url;
  p2 ← fetchJSON w countries_url;
  both ← await (Promise_all [p1; p2]);
  let timezones := item both 0 in
  let countries := item both 1 in
  totalTimezones ← lift (get timezones "length");
  totalCountries ← lift (get countries "length");
  sampleCountries ← lift (slice0 countries 10);
  stamp ← now w;
  mret (output (VObj
    [ ("totalTimezones", totalTimezones);
      ("sampleTimezones", VArr (VStr <$> majorZones));
      ("totalCountries", totalCountries);
      ("sampleCountries", sampleCountries);
      ("endpoints", endpoints);
      ("fetchedAt", VStr (toISOString rt stamp)) ])).

(** The object literal of 'current-time'. *)
Definition current_time_output (data : Value) : Result Value :=
  timeZone ← get data "timeZone";
  dateTime ← get data "dateTime";
  date ← get data "date";
  time ← get data "time";
  dayOfWeek ← get data "dayOfWeek";
  dstActive ← get data "dstActive";
  year ← get data "year";
  month ← get data "month";
  day ← get data "day";
  hour ← get data "hour";
  minute ← get data "minute";
  seconds ← get data "seconds";
  mret (output (VObj
    [ ("timezone", timeZone); ("dateTime", dateTime); ("date", date);
      ("time", time); ("dayOfWeek", dayOfWeek); ("dstActive", dstActive);
      ("year", year); ("month", month); ("day", day);
      ("hour", hour); ("minute", minute); ("seconds", seconds) ])).

(** key 'current-time' *)
Definition current_time_handler (input : CurrentTimeInput) : M Value :=
  p ← fetchJSON w (zone_url (ct_timezone input));
  data ← await p;
  lift (current_time_output data).

Definition convert_request (input : ConvertInput) : Request :=
  {| method := "POST"; url := convert_url;
     headers := [("Content-Type", "application/json")];
     body := Some (VObj
       [ ("fromTimeZone", VStr (fromTimezone input));
         ("dateTime", VStr (dateTime input));
         ("toTimeZone", VStr (toTimezone input));
         ("dstAmbiguity", VStr "") ]) |}.

(** The object literal of 'convert'. *)
Definition convert_output (data : Value) : Result Value :=
  from_tz ← get data "fromTimezone";
  from_dt ← get data "fromDateTime";
  to_tz ← get data "toTimeZone";
  conversionResult ← get data "conversionResult";
  c_dateTime ← get_opt conversionResult "dateTime";
  c_date ← get_opt conversionResult "date";
  c_time ← get_opt conversionResult "time";
  c_dayOfWeek ← get_opt conversionResult "dayOfWeek";
  c_dstActive ← get_opt conversionResult "dstActive";
  mret (output (VObj
    [ ("original", VObj [ ("timezone", from_tz); ("dateTime", from_dt) ]);
      ("converted", VObj
         [ ("timezone", to_tz); ("dateTime", c_dateTime); ("date", c_date);
           ("time", c_time); ("dayOfWeek", c_dayOfWeek); ("dstActive", c_dstActive) ]) ])).

(** key 'convert' *)
Definition convert_handler (input : ConvertInput) : M Value :=
  p ← fetch w (convert_request input);
  response ← await p;
  if negb (ok response) then lift (throw (api_error response))
  else
    data ← lift (json response);
    lift (convert_output data).

(** The callback of [data.map] in 'holidays'. *)
Definition reshape_holiday (h : Value) : Result Value :=
  date ← get h "date";
  name ← get h "name";
  localName ← get h "localName";
  isGlobal ← get h "global";
  types ← get h "types";
  mret (VObj [ ("date", date); ("name", name); ("localName", localName);
               ("isGlobal", isGlobal); ("types", types) ]).

(** [new Date().getFullYear()] *)
Definition current_year : M Z := t ← now w; mret (getFullYear rt t).

(** [ctx.input.year || new Date().getFullYear()] *)
Definition year_or_current (y : option Z) : M Z :=
  match y with
  | Some n => if n =? 0 then current_year else mret n
  | None => current_year
  end.

(** key 'holidays' *)
Definition holidays_handler (input : HolidaysInput) : M Value :=
  y ← year_or_current (year input);
  p ← fetchJSON w (holidays_url y (countryCode input));
  data ← await p;
  items ← lift (array_items "data.map" data);
  holidays ← lift (mapM reshape_holiday items);
  mret (output (VObj
    [ ("countryCode", VStr (toUpperCase (countryCode input)));
      ("year", VNum y);
      ("totalHolidays", VNum (Z.of_nat (length holidays)));
      ("holidays", VArr holidays) ])).

Definition slot_error (tz : string) : Value :=
  VObj [ ("timezone", VStr tz); ("error", VStr "Failed to fetch") ].

(** The object a 'multi-zone' callback returns when nothing throws. *)
Definition slot_success (tz : string) (data : Value) : Result Value :=
  dateTime ← get data "dateTime";
  date ← get data "date";
  time ← get data "time";
  dayOfWeek ← get data "dayOfWeek";
  dstActive ← get data "dstActive";
  mret (VObj [ ("timezone", VStr tz); ("dateTime", dateTime); ("date", date);
               ("time", time); ("dayOfWeek", dayOfWeek); ("dstActive", dstActive) ]).

(** The async callback of [timezones.map]: the request leaves when the
    callback is called, the try/catch runs when the answer is in. *)
Definition zone_slot (tz : string) : M (Promise Value) :=
  p ← fetchJSON w (zone_url tz);
  mret (and_then p (fun r =>
    try_catch (data ← r; slot_success tz data)
              (fun _ => mret (slot_error tz)))).

(** key 'multi-zone' *)
Definition multi_zone_handler (input : MultiZoneInput) : M Value :=
  ps ← mapM zone_slot (timezones input);
  results ← await (Promise_all ps);
  stamp ← now w;
  mret (output (VObj
    [ ("count", VNum (Z.of_nat (length results)));
      ("times", VArr results);
      ("fetchedAt", VStr (toISOString rt stamp)) ])).

(** [holidays.filter((h) => h.date >= today)] on the elements. *)
Fixpoint filter_upcoming (today : string) (hs : list Value) : Result (list Value) :=
  match hs with
  | [] => mret []
  | h :: rest =>
      date ← get h "date";
      kept ← filter_upcoming today rest;
      mret (if js_ge rt date today then h :: kept else kept)
  end.

(** The callback of [.map] in 'full-report'. *)
Definition upcoming_entry (h : Value) : M Value :=
  date ← lift (get h "date");
  name ← lift (get h "name");
  d ← lift (get h "date");
  t ← now w;
  mret (VObj [ ("date", date); ("name", name); ("daysUntil", days_until rt d t) ]).

(** key 'full-report' *)
Definition full_report_handler (input : FullReportInput) : M Value :=
  y ← current_year;
  p1 ← fetchJSON w (zone_url (fr_timezone input));
  p2 ← fetchJSON w (holidays_url y (fr_countryCode input));
  both ← await (Promise_all [p1; p2]);
  let timeData := item both 0 in
  let holidays := item both 1 in
  stamp ← now w;
  let today := before_first "T" (toISOString rt stamp) in
  hs ← lift (array_items "holidays.filter" holidays);
  kept ← lift (filter_upcoming today hs);
  upcomingHolidays ← mapM upcoming_entry (take 5 kept);
  currentTime ← lift (get timeData "dateTime");
  date ← lift (get timeData "date");
  time ← lift (get timeData "time");
  dayOfWeek ← lift (get timeData "dayOfWeek");
  dstActive ← lift (get timeData "dstActive");
  totalHolidays ← lift (get holidays "length");
  generated ← now w;
  mret (output (VObj
    [ ("timezone", VObj
         [ ("name", VStr (fr_timezone input)); ("currentTime", currentTime);
           ("date", date); ("time", time); ("dayOfWeek", dayOfWeek);
           ("dstActive", dstActive) ]);
      ("country", VObj
         [ ("code", VStr (toUpperCase (fr_countryCode input)));
           ("totalHolidays", totalHolidays);
           ("upcomingHolidays", VArr upcomingHolidays) ]);
      ("generatedAt", VStr (toISOString rt generated)) ])).

End Handlers.

(** ** A runtime for a server in UTC *)

Module Utc.

(** Days since 1970-01-01 of a proleptic Gregorian date. *)
Definition days_from_civil (y m d : Z) : Z :=
  let y' := if m <=? 2 then y - 1 else y in
  let era := y' / 400 in
  let yoe := y' - era * 400 in
  let mp := if 2 <? m then m - 3 else m + 9 in
  let doy := (153 * mp + 2) / 5 + d - 1 in
  let doe := yoe * 365 + yoe / 4 - yoe / 100 + doy in
  era * 146097 + doe - 719468.

(** Year, month and day of a day number. *)
Definition civil_from_days (z : Z) : Z * Z * Z :=
  let z' := z + 719468 in
  let era := z' / 146097 in
  let doe := z' - era * 146097 in
  let yoe := (doe - doe / 1460 + doe / 36524 - doe / 146096) / 365 in
  let doy := doe - (365 * yoe + yoe / 4 - yoe / 100) in
  let mp := (5 * doy + 2) / 153 in
  let d := doy - (153 * mp + 2) / 5 + 1 in
  let m := if mp <? 10 then mp + 3 else mp - 9 in
  ((if m <=? 2 then yoe + era * 400 + 1 else yoe + era * 400), m, d).

Fixpoint zeros (n : nat) : string :=
  match n with
  | O => ""
  | S k => String "0" (zeros k)
  end.

Definition pad (width : nat) (z : Z) : string :=
  let s := decimal z in zeros (width - String.length s) +:+ s.

Definition iso_year (y : Z) : string :=
  if (0 <=? y) && (y <=? 9999) then pad 4 y
  else if y <? 0 then "-" +:+ pad 6 (- y)
  else "+" +:+ pad 6 y.

Definition utc_year (t : Z) : Z := (civil_from_days (t / ms_per_day)).1.1.

Definition iso_string (t : Z) : string :=
  let '(y, m, d) := civil_from_days (t / ms_per_day) in
  let r := t mod ms_per_day in
  iso_year y +:+ "-" +:+ pad 2 m +:+ "-" +:+ pad 2 d +:+ "T"
    +:+ pad 2 (r / 3600000) +:+ ":" +:+ pad 2 (r / 60000 mod 60) +:+ ":"
    +:+ pad 2 (r / 1000 mod 60) +:+ "." +:+ pad 3 (r mod 1000) +:+ "Z".

Definition digit (c : ascii) : option Z :=
  let n := nat_of_ascii c in
  if (48 <=? n)%nat && (n <=? 57)%nat then Some (Z.of_nat n - 48) else None.

Fixpoint digits (acc : Z) (cs : list ascii) : option Z :=
  match cs with
  | [] => Some acc
  | c :: rest => d ← digit c; digits (10 * acc + d) rest
  end.

Definition is_leap (y : Z) : bool :=
  ((y mod 4 =? 0) && negb (y mod 100 =? 0)) || (y mod 400 =? 0).

Definition days_in_month (y m : Z) : Z :=
  if m =? 2 then (if is_leap y then 29 else 28)
  else if (m =? 4) || (m =? 6) || (m =? 9) || (m =? 11) then 30
  else 31.

(** [Date.parse] on the date-only form YYYY-MM-DD (midnight UTC); other
    texts are not recognised. *)
Definition parse_date (s : string) : option Z :=
  match list_ascii_of_string s with
  | [y1; y2; y3; y4; "-"%char; m1; m2; "-"%char; d1; d2] =>
      y ← digits 0 [y1; y2; y3; y4];
      m ← digits 0 [m1; m2];
      d ← digits 0 [d1; d2];
      if (1 <=? m) && (m <=? 12) && (1 <=? d) && (d <=? days_in_month y m)
      then Some (days_from_civil y m d * ms_per_day)
      else None
  | _ => None
  end.

Fixpoint join (sep : string) (parts : list string) : string :=
  match parts with
  | [] => ""
  | [p] => p
  | p :: rest => p +:+ sep +:+ join sep rest
  end.

(** [String(v)] *)
Fixpoint ToString (v : Value) : string :=
  match v with
  | VUndefined => "undefined"
  | VNull => "null"
  | VBool b => if b then "true" else "false"
  | VNum z => decimal z
  | VNaN => "NaN"
  | VStr s => s
  | VArr items =>
      join "," (List.map (fun x => if is_nullish x then "" else ToString x) items)
  | VObj _ => "[object Object]"
  end.

Definition max_time : Z := 8640000000000000.

Definition getTime (v : Value) : option Z :=
  match v with
  | VStr s => parse_date s
  | VNum z => if (- max_time <=? z) && (z <=? max_time) then Some z else None
  | VNull => Some 0
  | VBool b => Some (if b then 1 else 0)
  | VUndefined | VNaN => None
  | VArr _ | VObj _ => parse_date (ToString v)
  end.

(** [v >= s] for a [v] that is not a string and an [s] that is not the
    text of a number, as an ISO date is not: arrays and objects are
    compared through their text, every other comparison involves NaN. *)
Definition ge_text (v : Value) (s : string) : bool :=
  match v with
  | VArr _ | VObj _ => negb (String.ltb (ToString v) s)
  | _ => false
  end.

End Utc.

Definition utc_runtime : Runtime :=
  {| getFullYear := Utc.utc_year;
     toISOString := Utc.iso_string;
     Date_getTime := Utc.getTime;
     ge_coerced := Utc.ge_text |}.

(** ** Vocabulary of the statements *)

(** An upstream call fails: no answer, or an answer outside 200..299. *)
Definition call_failed (o : FetchOutcome) : bool :=
  match o with
  | Unreachable _ => true
  | Responded r => negb (ok r)
  end.

(** What awaiting [fetchJSON] yields when the world's answer is [o]. *)
Definition fetched (o : FetchOutcome) : Result Value :=
  match o with
  | Unreachable reason => throw (FetchFailure reason)
  | Responded r => if negb (ok r) then throw (api_error r) else json r
  end.

(** The 'multi-zone' slot for zone [tz] when the answer to its request
    is [o]. *)
Definition slot_of (tz : string) (o : FetchOutcome) : Value :=
  match fetched o ≫= slot_success tz with
  | inr v => v
  | inl _ => slot_error tz
  end.

(** Field [k] of [v], [undefined] where the read would throw. *)
Definition field (k : string) (v : Value) : Value :=
  match get v k with
  | inr x => x
  | inl _ => VUndefined
  end.

Definition ok_json (v : Value) : FetchOutcome :=
  Responded {| status := 200; payload := Some v |}.

Definition http_status (code : Z) : FetchOutcome :=
  Responded {| status := code; payload := None |}.

(** The promises 'multi-zone' creates for zones [tzs] when [n] requests
    have already been issued. *)
Fixpoint slot_promises (w : World) (n : nat) (tzs : list string) : list (Promise Value) :=
  match tzs with
  | [] => []
  | tz :: rest =>
      {| settled_at := settle w n;
         outcome := inr (slot_of tz (respond w n (get_request (zone_url tz)))) |}
      :: slot_promises w (S n) rest
  end.

(** The slots of 'multi-zone' for zones [tzs]: slot [i] is made from the
    answer to request [i]. *)
Definition slots (w : World) (tzs : list string) : list Value :=
  imap (fun i tz => slot_of tz (respond w i (get_request (zone_url tz)))) tzs.

(** The output of 'multi-zone'. *)
Definition multi_zone_output (n : nat) (times : list Value) (fetchedAt : string) : Value :=
  output (VObj [ ("count", VNum (Z.of_nat n)); ("times", VArr times);
                 ("fetchedAt", VStr fetchedAt) ]).

(** ** Sample worlds *)

Definition new_york_time : Value :=
  VObj [ ("year", VNum 2026); ("month", VNum 11); ("day", VNum 2);
         ("hour", VNum 5); ("minute", VNum 0); ("seconds", VNum 0);
         ("dateTime", VStr "2026-11-02T05:00:00.123"); ("date", VStr "11/02/2026");
         ("time", VStr "05:00"); ("timeZone", VStr "America/New_York");
         ("dayOfWeek", VStr "Monday"); ("dstActive", VBool false) ].

(** 2026-11-02T10:00:00.123Z *)
Definition monday_morning : Z := 1793613600123.

(** The time provider knows every zone but "Invalid/Zone". *)
Definition zone_world : World :=
  {| respond := fun _ req =>
       if String.eqb (url req) (zone_url "Invalid/Zone") then http_status 400
       else ok_json new_york_time;
     settle := fun n => n;
     clock := fun _ => monday_morning |}.

(** The output of 'overview' for upstream lists [zs] and [cs]. *)
Definition overview_output (zs cs : list Value) (fetchedAt : string) : Value :=
  output (VObj
    [ ("totalTimezones", VNum (Z.of_nat (length zs)));
      ("sampleTimezones", VArr (VStr <$> majorZones));
      ("totalCountries", VNum (Z.of_nat (length cs)));
      ("sampleCountries", VArr (take 10 cs));
      ("endpoints", endpoints);
      ("fetchedAt", VStr fetchedAt) ]).

(** Both providers answer 'overview' with a list. *)
Definition lists_world (zs cs : list Value) : World :=
  {| respond := fun n _ => ok_json (VArr (if (n =? 0)%nat then zs else cs));
     settle := fun n => (5 - n)%nat;
     clock := fun _ => monday_morning |}.

Definition twelve_countries : list Value :=
  (fun code => VObj [("countryCode", VStr code)]) <$>
    ["AD"; "AL"; "AM"; "AR"; "AT"; "AU"; "AX"; "BA"; "BB"; "BE"; "BG"; "BJ"].

(** The year 'holidays' asks for. *)
Definition chosen_year (rt : Runtime) (w : World) (y : option Z) : Z :=
  match y with
  | Some n => if n =? 0 then getFullYear rt (clock w 0) else n
  | None => getFullYear rt (clock w 0)
  end.

(** What 'holidays' makes of the awaited body. *)
Definition holidays_result (y : Z) (code : string) (r : Result Value) : Result Value :=
  data ← r;
  items ← array_items "data.map" data;
  holidays ← mapM reshape_holiday items;
  mret (output (VObj
    [ ("countryCode", VStr (toUpperCase code));
      ("year", VNum y);
      ("totalHolidays", VNum (Z.of_nat (length holidays)));
      ("holidays", VArr holidays) ])).

Definition new_year : Value :=
  VObj [ ("date", VStr "2026-01-01"); ("localName", VStr "New Year's Day");
         ("name", VStr "New Year's Day"); ("countryCode", VStr "US");
         ("global", VBool true); ("types", VArr [VStr "Public"]) ].

Definition veterans_day : Value :=
  VObj [ ("date", VStr "2026-11-11"); ("localName", VStr "Veterans Day");
         ("name", VStr "Veterans Day"); ("countryCode", VStr "US");
         ("global", VBool true); ("types", VArr [VStr "Public"]) ].

Definition christmas : Value :=
  VObj [ ("date", VStr "2026-12-25"); ("localName", VStr "Christmas Day");
         ("name", VStr "Christmas Day"); ("countryCode", VStr "US");
         ("global", VBool true); ("types", VArr [VStr "Public"]) ].

(** The holiday provider answers with the list [hs], the time provider
    with New York's time; the clock follows [clk]. *)
Definition calendar_world (hs : list Value) (clk : nat -> Z) : World :=
  {| respond := fun _ req =>
       if String.eqb (method req) "GET" then
         if String.prefix "https://date.nager.at/" (url req)
         then ok_json (VArr hs)
         else ok_json new_york_time
       else http_status 405;
     settle := fun n => n;
     clock := clk |}.

Definition holiday_world : World :=
  calendar_world [new_year; veterans_day; christmas] (fun n => monday_morning + Z.of_nat n).

Definition all_souls : Value :=
  VObj [ ("date", VStr "2026-11-02"); ("localName", VStr "All Souls' Day");
         ("name", VStr "All Souls' Day") ].

(** A holiday that falls on the day of the request. *)
Definition today_world : World :=
  calendar_world [new_year; all_souls; christmas] (fun n => monday_morning + Z.of_nat n).

(** 2026-11-03T00:00:00.000Z *)
Definition tuesday_midnight : Z := 1793664000000.

(** The request is handled across midnight: the first two readings of the
    clock fall on Monday, the later ones on Tuesday. *)
Definition midnight_world : World :=
  calendar_world [new_year; all_souls; christmas]
    (fun n => if (n <? 2)%nat then tuesday_midnight - 1 else tuesday_midnight + 1).

Definition new_york_us : FullReportInput :=
  {| fr_timezone := "America/New_York"; fr_countryCode := "us" |}.

(** The answer of the conversion provider without [conversionResult]. *)
Definition partial_conversion : Value :=
  VObj [ ("fromTimezone", VStr "Europe/Amsterdam");
         ("fromDateTime", VStr "2026-02-01T10:00:00");
         ("toTimeZone", VStr "America/Los_Angeles") ].

Definition conversion_world : World :=
  {| respond := fun _ _ => ok_json partial_conversion;
     settle := fun n => n;
     clock := fun _ => monday_morning |}.

(** The output of 'convert' when the body [data] has no
    [conversionResult]. *)
Definition partial_convert_output (data : Value) : Value :=
  output (VObj
    [ ("original", VObj [ ("timezone", field "fromTimezone" data);
                          ("dateTime", field "fromDateTime" data) ]);
      ("converted", VObj
         [ ("timezone", field "toTimeZone" data); ("dateTime", VUndefined);
           ("date", VUndefined); ("time", VUndefined);
           ("dayOfWeek", VUndefined); ("dstActive", VUndefined) ]) ]).

Definition amsterdam_to_la : ConvertInput :=
  {| fromTimezone := "Europe/Amsterdam"; toTimezone := "America/Los_Angeles";
     dateTime := "2026-02-01 10:00:00" |}.

(** Clock readings 'holidays' makes to choose the year. *)
Definition year_reads (y : option Z) : nat :=
  match y with
  | Some n => if n =? 0 then 1 else 0
  | None => 1
  end.

(** The date 'full-report' compares holidays with: the text of the second
    clock reading up to its [T]. *)
Definition today_of (rt : Runtime) (w : World) : string :=
  before_first "T" (toISOString rt (clock w 1)).

(** The holidays that pass [h.date >= today]. *)
Definition upcoming_filter (rt : Runtime) (today : string) (hs : list Value) : list Value :=
  List.filter (fun h => js_ge rt (field "date" h) today) hs.

(** The entry 'full-report' makes of holiday [h] at clock value [t]. *)
Definition entry_of (rt : Runtime) (h : Value) (t : Z) : Value :=
  VObj [ ("date", field "date" h); ("name", field "name" h);
         ("daysUntil", days_until rt (field "date" h) t) ].

(** The entries of [upcomingHolidays]: the [i]-th one reads the clock for
    the [2 + i]-th time. *)
Definition upcoming_of (rt : Runtime) (w : World) (kept : list Value) : list Value :=
  imap (fun i h => entry_of rt h (clock w (2 + i))) kept.

(** The output of 'full-report' for the bodies [timeData] and [hs]. *)
Definition full_report_output (rt : Runtime) (w : World) (input : FullReportInput)
    (timeData : Value) (hs : list Value) : Value :=
  let ups := upcoming_of rt w (take 5 (upcoming_filter rt (today_of rt w) hs)) in
  output (VObj
    [ ("timezone", VObj
         [ ("name", VStr (fr_timezone input)); ("currentTime", field "dateTime" timeData);
           ("date", field "date" timeData); ("time", field "time" timeData);
           ("dayOfWeek", field "dayOfWeek" timeData);
           ("dstActive", field "dstActive" timeData) ]);
      ("country", VObj
         [ ("code", VStr (toUpperCase (fr_countryCode input)));
           ("totalHolidays", VNum (Z.of_nat (length hs)));
           ("upcomingHolidays", VArr ups) ]);
      ("generatedAt", VStr (toISOString rt (clock w (2 + length ups)))) ]).

(** The two requests of 'full-report'. *)
Definition report_requests (rt : Runtime) (w : World) (input : FullReportInput) : list Request :=
  [ get_request (zone_url (fr_timezone input));
    get_request (holidays_url (getFullYear rt (clock w 0)) (fr_countryCode input)) ].

(** [upcomingHolidays] of an output of 'full-report'. *)
Definition upcomingHolidays_of (out : Value) : Value :=
  field "upcomingHolidays" (field "country" (field "output" out)).

(** ** The registry *)

(** A call of one of the six metered entrypoints, with its validated
    input. *)
Inductive Call : Type :=
| Overview
| CurrentTime (input : CurrentTimeInput)
| Convert (input : ConvertInput)
| Holidays (input : HolidaysInput)
| MultiZone (input : MultiZoneInput)
| FullReport (input : FullReportInput).

Definition handle (rt : Runtime) (w : World) (c : Call) : M Value :=
  match c with
  | Overview => overview_handler rt w
  | CurrentTime input => current_time_handler w input
  | Convert input => convert_handler w input
  | Holidays input => holidays_handler rt w input
  | MultiZone input => multi_zone_handler rt w input
  | FullReport input => full_report_handler rt w input
  end.

(** The entrypoint with a try/catch around each upstream call. *)
Definition catches_per_item (c : Call) : bool :=
  match c with
  | MultiZone _ => true
  | _ => false
  end.

(** What a failed call throws: the rejection of [fetch], or
    [new Error(`API error: ${response.status}`)]. *)
Definition failure_of (o : FetchOutcome) : Thrown :=
  match o with
  | Unreachable reason => FetchFailure reason
  | Responded r => Error ("API error: " +:+ decimal (status r))
  end.

(** Errors that report a failed upstream call, as opposed to the
    TypeError and SyntaxError raised while reading a body. *)
Definition upstream_failure (e : Thrown) : bool :=
  match e with
  | Error _ | FetchFailure _ => true
  | SyntaxError | TypeError _ => false
  end.

(** Some request among [reqs], the [n]-th being answered by
    [respond w n], fails. *)
Definition some_call_failed (w : World) (reqs : list Request) : Prop :=
  exists n o, respond w n <$> reqs !! n = Some o /\ call_failed o = true.

(** The handler throws exactly when some call of its batch fails. *)
Definition throws_iff_upstream_fails (rt : Runtime) (w : World) (c : Call) : Prop :=
  let (r, t) := handle rt w c start in
  (exists e, r = inl e) <-> some_call_failed w (issued t).

(** A computation that throws no upstream failure. *)
Definition tame {A} (r : Result A) : Prop :=
  forall e, r = inl e -> upstream_failure e = false.

(** A step that sends nothing and throws no upstream failure. *)
Definition quiet {A} (m : M A) : Prop :=
  forall t, issued (m t).2 = issued t /\ tame (m t).1.

(** How a batch of requests shows in the result [r]: a failed call makes
    [r] a throw, and an upstream failure thrown is that of a failed call. *)
Definition propagates {A} (w : World) (reqs : list Request) (r : Result A) : Prop :=
  (some_call_failed w reqs -> exists e, r = inl e)
  /\ (forall e, r = inl e -> upstream_failure e = true ->
        exists n o, respond w n <$> reqs !! n = Some o
                    /\ call_failed o = true /\ e = failure_of o).

(** The time provider answers 200 with the JSON body [null]. *)
Definition null_world : World :=
  {| respond := fun _ _ => ok_json VNull;
     settle := fun n => n;
     clock := fun _ => monday_morning |}.

Definition london : CurrentTimeInput := {| ct_timezone := "Europe/London" |}.

(** The time provider is down: every request gets status 503. *)
Definition down_world : World :=
  {| respond := fun _ _ => http_status 503;
     settle := fun n => n;
     clock := fun _ => monday_morning |}.

(** ** The analytics entrypoints *)

(** [v.toString()]: a TypeError on [null] and [undefined] and on an object
    whose own [toString] is data, the text of the value otherwise. *)
Definition toString (v : Value) : Result string :=
  match v with
  | VUndefined | VNull => throw (TypeError "Cannot read properties of null or undefined: toString")
  | VObj fields =>
      if is_nullish (lookup_field "toString" fields) then mret (Utc.ToString v)
      else throw (TypeError "toString is not a function")
  | _ => mret (Utc.ToString v)
  end.

(** [{ ...fields, k: v }]: an own key keeps its place, a new key goes
    last. *)
Fixpoint set_field (k : string) (v : Value) (fields : list (string * Value))
    : list (string * Value) :=
  match fields with
  | [] => [(k, v)]
  | (k', v') :: rest =>
      if String.eqb k' k then (k, v) :: rest else (k', v') :: set_field k v rest
  end.

(** [v.slice(0, limit)] for an integer [limit]: a negative [limit] counts
    from the end. *)
Definition slice_to (v : Value) (limit : Z) : Result Value :=
  match v with
  | VArr items =>
      let n := Z.of_nat (length items) in
      mret (VArr (take (Z.to_nat (if limit <? 0 then n + limit else limit)) items))
  | VStr s =>
      let n := Z.of_nat (String.length s) in
      mret (VStr (substring 0 (Z.to_nat (if limit <? 0 then n + limit else limit)) s))
  | _ => throw (TypeError "slice is not a function")
  end.

(** [limit: z.number().optional().default(50)] *)
Definition limit_or_default (limit : option Z) : Z := default 50 limit.

(** What the analytics handlers use of the agent and of
    '@lucid-agents/analytics': the payment tracker, absent when analytics
    is off, and the awaited results of the three imported functions for a
    tracker and a window. *)
Record Analytics (Tracker : Type) : Type := {
  paymentTracker : option Tracker;
  getSummary : Tracker -> option Z -> Result (list (string * Value));
  getAllTransactions : Tracker -> option Z -> Result Value;
  exportToCSV : Tracker -> option Z -> Result Value
}.
Arguments paymentTracker {Tracker} _.
Arguments getSummary {Tracker} _ _ _.
Arguments getAllTransactions {Tracker} _ _ _.
Arguments exportToCSV {Tracker} _ _ _.

Section AnalyticsHandlers.
Context {Tracker : Type} (a : Analytics Tracker).

(** key 'analytics' *)
Definition analytics_handler (windowMs : option Z) : Result Value :=
  match paymentTracker a with
  | None => mret (output (VObj [("error", VStr "Analytics not available")]))
  | Some tracker =>
      summary ← getSummary a tracker windowMs;
      outgoingTotal ← get (VObj summary) "outgoingTotal" ≫= toString;
      incomingTotal ← get (VObj summary) "incomingTotal" ≫= toString;
      netTotal ← get (VObj summary) "netTotal" ≫= toString;
      mret (output (VObj
        (set_field "netTotal" (VStr netTotal)
          (set_field "incomingTotal" (VStr incomingTotal)
            (set_field "outgoingTotal" (VStr outgoingTotal) summary)))))
  end.

(** key 'analytics-transactions', on the input with the default applied *)
Definition analytics_transactions_handler (windowMs : option Z) (limit : Z) : Result Value :=
  match paymentTracker a with
  | None => mret (output (VObj [("transactions", VArr [])]))
  | Some tracker =>
      txs ← getAllTransactions a tracker windowMs;
      transactions ← slice_to txs limit;
      mret (output (VObj [("transactions", transactions)]))
  end.

(** key 'analytics-csv' *)
Definition analytics_csv_handler (windowMs : option Z) : Result Value :=
  match paymentTracker a with
  | None => mret (output (VObj [("csv", VStr "")]))
  | Some tracker =>
      csv ← exportToCSV a tracker windowMs;
      mret (output (VObj [("csv", csv)]))
  end.

End AnalyticsHandlers.

(** ** The registration document *)

Definition production_url : string := "https://timezone-intel-production.up.railway.app".

(** [process.env.AGENT_BASE_URL || '...']: an unset and an empty variable
    are both falsy. *)
Definition baseUrl (env : option string) : string :=
  match env with
  | None => production_url
  | Some s => if String.eqb s "" then production_url else s
  end.

(** The body of GET /.well-known/erc8004.json *)
Definition erc8004 (env : option string) : Value :=
  VObj
    [ ("type", VStr "https://eips.ethereum.org/EIPS/eip-8004#registration-v1");
      ("name", VStr "timezone-intel");
      ("description", VStr "Real-time timezone intelligence: current times, conversions, holiday calendars, DST info. Essential for scheduling agents. 1 free + 5 paid endpoints via x402.");
      ("image", VStr (baseUrl env +:+ "/icon.png"));
      ("services", VArr
         [ VObj [ ("name", VStr "web"); ("endpoint", VStr (baseUrl env)) ];
           VObj [ ("name", VStr "A2A");
                  ("endpoint", VStr (baseUrl env +:+ "/.well-known/agent.json"));
                  ("version", VStr "0.3.0") ] ]);
      ("x402Support", VBool true);
      ("active", VBool true);
      ("registrations", VArr []);
      ("supportedTrust", VArr [VStr "reputation"]) ].

(** ** Vocabulary of the further properties *)

(** The value of a hexadecimal digit 0-9, A-F. *)
Definition hex_value (c : ascii) : nat :=
  let n := nat_of_ascii c in
  if (n <? 58)%nat then (n - 48)%nat else (n - 55)%nat.

(** Reading back what [encodeURIComponent] wrote. *)
Fixpoint percent_decode (s : string) : string :=
  match s with
  | String "%" (String h (String l rest)) =>
      String (ascii_of_nat (16 * hex_value h + hex_value l)) (percent_decode rest)
  | String c rest => String c (percent_decode rest)
  | EmptyString => EmptyString
  end.

(** The characters that delimit parts of a URL or of its query. *)
Definition url_delimiters : list ascii :=
  ["&"; "="; "#"; "?"; "/"; " "; "+"; ":"; "@"]%char.

(** The output of 'current-time' for the body [data]. *)
Definition current_time_view (data : Value) : Value :=
  output (VObj
    [ ("timezone", field "timeZone" data); ("dateTime", field "dateTime" data);
      ("date", field "date" data); ("time", field "time" data);
      ("dayOfWeek", field "dayOfWeek" data); ("dstActive", field "dstActive" data);
      ("year", field "year" data); ("month", field "month" data);
      ("day", field "day" data); ("hour", field "hour" data);
      ("minute", field "minute" data); ("seconds", field "seconds" data) ]).


(** The fields 'multi-zone' and 'current-time' both report. *)
Definition shared_time_fields : list string :=
  ["dateTime"; "date"; "time"; "dayOfWeek"; "dstActive"].

(** London's time as the provider words it. *)
Definition london_time : Value :=
  VObj [ ("dateTime", VStr "2026-11-02T10:00:00.123"); ("date", VStr "11/02/2026");
         ("time", VStr "10:00"); ("timeZone", VStr "Europe/London");
         ("dayOfWeek", VStr "Monday"); ("dstActive", VBool false) ].

(** The time provider answers every request with London's time. *)
Definition london_world : World :=
  {| respond := fun _ _ => ok_json london_time;
     settle := fun n => n;
     clock := fun _ => monday_morning |}.

(** The requests an entrypoint sends: they are settled by the input and,
    for the year, by the first reading of the clock. *)
Definition requests_of (rt : Runtime) (w : World) (c : Call) : list Request :=
  match c with
  | Overview => [get_request zones_url; get_request countries_url]
  | CurrentTime input => [get_request (zone_url (ct_timezone input))]
  | Convert input => [convert_request input]
  | Holidays input =>
      [get_request (holidays_url (chosen_year rt w (year input)) (countryCode input))]
  | MultiZone input => get_request ∘ zone_url <$> timezones input
  | FullReport input => report_requests rt w input
  end.

(** The number of upstream calls of an entrypoint. *)
Definition calls_of (c : Call) : nat :=
  match c with
  | Overview | FullReport _ => 2
  | CurrentTime _ | Convert _ | Holidays _ => 1
  | MultiZone input => length (timezones input)
  end.

(** [v?.k], [undefined] where [v.k] would throw. *)
Definition opt_field (k : string) (v : Value) : Value :=
  if is_nullish v then VUndefined else field k v.

(** The output of 'convert' for the body [data]. *)
Definition convert_view (data : Value) : Value :=
  let cr := field "conversionResult" data in
  output (VObj
    [ ("original", VObj [ ("timezone", field "fromTimezone" data);
                          ("dateTime", field "fromDateTime" data) ]);
      ("converted", VObj
         [ ("timezone", field "toTimeZone" data); ("dateTime", opt_field "dateTime" cr);
           ("date", opt_field "date" cr); ("time", opt_field "time" cr);
           ("dayOfWeek", opt_field "dayOfWeek" cr);
           ("dstActive", opt_field "dstActive" cr) ]) ]).

(** The fields of [converted] taken from [conversionResult]. *)
Definition conversion_fields : list string :=
  ["dateTime"; "date"; "time"; "dayOfWeek"; "dstActive"].

(** A whole answer of the conversion provider. *)
Definition full_conversion : Value :=
  VObj [ ("fromTimezone", VStr "Europe/Amsterdam");
         ("fromDateTime", VStr "2026-02-01T10:00:00");
         ("toTimeZone", VStr "America/Los_Angeles");
         ("conversionResult", VObj
            [ ("year", VNum 2026); ("month", VNum 2); ("day", VNum 1);
              ("dateTime", VStr "2026-02-01T01:00:00"); ("date", VStr "02/01/2026");
              ("time", VStr "01:00"); ("timeZone", VStr "America/Los_Angeles");
              ("dstActive", VBool false) ]) ].

(** The conversion provider answers with [body]. *)
Definition answering (body : Value) : World :=
  {| respond := fun _ _ => ok_json body;
     settle := fun n => n;
     clock := fun _ => monday_morning |}.

(** The entry 'holidays' makes of the upstream holiday [h]. *)
Definition reshaped (h : Value) : Value :=
  VObj [ ("date", field "date" h); ("name", field "name" h);
         ("localName", field "localName" h); ("isGlobal", field "global" h);
         ("types", field "types" h) ].

(** The output of 'holidays' for year [y], code [code] and the upstream
    list [items]. *)
Definition holidays_view (y : Z) (code : string) (items : list Value) : Value :=
  output (VObj
    [ ("countryCode", VStr (toUpperCase code));
      ("year", VNum y);
      ("totalHolidays", VNum (Z.of_nat (length items)));
      ("holidays", VArr (reshaped <$> items)) ]).




(** The time provider is down and the holiday provider is unreachable;
    the answer of the second arrives first. *)
Definition both_down_world : World :=
  {| respond := fun n _ => if (n =? 0)%nat then http_status 503
                           else Unreachable "connection refused";
     settle := fun n => (5 - n)%nat;
     clock := fun _ => monday_morning |}.

(** The three totals 'analytics' turns into strings. *)
Definition total_keys : list string := ["outgoingTotal"; "incomingTotal"; "netTotal"].

(** A summary as the analytics library gives it: counts as numbers, the
    three totals as big integers. *)
Definition sample_summary : list (string * Value) :=
  [ ("outgoingCount", VNum 0); ("outgoingTotal", VNum 0);
    ("incomingCount", VNum 3); ("incomingTotal", VNum 6000);
    ("netTotal", VNum 6000); ("windowMs", VUndefined) ].

Definition sample_transactions : list Value :=
  [ VObj [("amount", VStr "1000")]; VObj [("amount", VStr "2000")];
    VObj [("amount", VStr "3000")] ].

(** Analytics with a tracker that holds the sample data. *)
Definition sample_analytics : Analytics unit :=
  {| paymentTracker := Some tt;
     getSummary := fun _ _ => inr sample_summary;
     getAllTransactions := fun _ _ => inr (VArr sample_transactions);
     exportToCSV := fun _ _ => inr (VStr "direction,amount") |}.

(** ** ISO dates *)

(** The character of the decimal digit [v]. *)
Definition digit_char (v : Z) : ascii := ascii_of_nat (Z.to_nat (48 + v)).

(** YYYY-MM-DD, written digit by digit. *)
Definition date_text (y m d : Z) : string :=
  String (digit_char (y / 1000)) (String (digit_char (y / 100 mod 10))
    (String (digit_char (y / 10 mod 10)) (String (digit_char (y mod 10))
      (String "-" (String (digit_char (m / 10)) (String (digit_char (m mod 10))
        (String "-" (String (digit_char (d / 10)) (String (digit_char (d mod 10))
          EmptyString))))))))).

(** The date as one number: YYYYMMDD. *)
Definition date_key (y m d : Z) : Z := y * 10000 + m * 100 + d.

(** [Utc.pad] writes the digits of a number below 10^4, resp. 10^2. *)
Definition pad4_digits (n : Z) : bool :=
  String.eqb (Utc.pad 4 n)
    (String (digit_char (n / 1000)) (String (digit_char (n / 100 mod 10))
      (String (digit_char (n / 10 mod 10)) (String (digit_char (n mod 10)) EmptyString)))).

Definition pad2_digits (n : Z) : bool :=
  String.eqb (Utc.pad 2 n)
    (String (digit_char (n / 10)) (String (digit_char (n mod 10)) EmptyString)).

(** The first millisecond of the UTC day of [t]. *)
Definition utc_midnight (t : Z) : Z := t / ms_per_day * ms_per_day.

(** The last millisecond of the year 9999. *)
Definition last_four_digit_instant : Z := 253402300799999.

(** * Properties *)

(** ** Strings and dates *)

Example upper_us : toUpperCase "us" = "US".
Proof. reflexivity. Qed.

Example encode_zone : encodeURIComponent "America/New_York" = "America%2FNew_York".
Proof. reflexivity. Qed.

Example iso_2026 : Utc.iso_string 1793613600123 = "2026-11-02T10:00:00.123Z".
Proof. reflexivity. Qed.

Example iso_epoch : Utc.iso_string 0 = "1970-01-01T00:00:00.000Z".
Proof. reflexivity. Qed.

Example iso_before_epoch : Utc.iso_string (-1) = "1969-12-31T23:59:59.999Z".
Proof. reflexivity. Qed.

Example parse_2026 : Utc.parse_date "2026-11-02" = Some 1793577600000.
Proof. reflexivity. Qed.

Example parse_leap : Utc.parse_date "2024-02-29" = Some 1709164800000
  /\ Utc.parse_date "2026-02-29" = None.
Proof. split; reflexivity. Qed.

(** ** Running the monad *)

Lemma bind_run {A B} (m : M A) (f : A -> M B) (t : Trace) :
  (m ≫= f) t = match m t with
               | (inl e, t') => (inl e, t')
               | (inr x, t') => f x t'
               end.
Proof. reflexivity. Qed.

Lemma fetchJSON_run (w : World) (u : string) (t : Trace) :
  fetchJSON w u t =
    (inr {| settled_at := settle w (length (issued t));
            outcome := fetched (respond w (length (issued t)) (get_request u)) |},
     {| issued := issued t ++ [get_request u]; reads := reads t |}).
Proof.
  unfold fetchJSON. rewrite bind_run. unfold fetch. cbn.
  unfold and_then, fetched. cbn.
  destruct (respond w (length (issued t)) (get_request u)); reflexivity.
Qed.

Lemma zone_slot_run (w : World) (tz : string) (t : Trace) :
  zone_slot w tz t =
    (inr {| settled_at := settle w (length (issued t));
            outcome := inr (slot_of tz (respond w (length (issued t)) (get_request (zone_url tz)))) |},
     {| issued := issued t ++ [get_request (zone_url tz)]; reads := reads t |}).
Proof.
  unfold zone_slot. rewrite bind_run, fetchJSON_run. cbn.
  unfold and_then, slot_of, try_catch. cbn.
  destruct (fetched _ ≫= slot_success tz); reflexivity.
Qed.

Lemma zone_slots_run (w : World) (tzs : list string) (t : Trace) :
  mapM (zone_slot w) tzs t =
    (inr (slot_promises w (length (issued t)) tzs),
     {| issued := issued t ++ (get_request ∘ zone_url <$> tzs); reads := reads t |}).
Proof.
  revert t. induction tzs as [|tz rest IH]; intros t.
  - cbn. rewrite app_nil_r. destruct t; reflexivity.
  - cbn [mapM]. rewrite bind_run, zone_slot_run. rewrite bind_run, IH. cbn.
    rewrite length_app. cbn. rewrite Nat.add_1_r.
    rewrite <- app_assoc. reflexivity.
Qed.

Lemma slot_promises_all (w : World) (n : nat) (tzs : list string) :
  first_rejection (slot_promises w n tzs) = None
  /\ fulfilled (slot_promises w n tzs)
     = imap (fun i tz => slot_of tz (respond w (n + i) (get_request (zone_url tz)))) tzs.
Proof.
  revert n. induction tzs as [|tz rest IH]; intros n; [done|].
  destruct (IH (S n)) as [Hrej Hful]. cbn. rewrite Hrej, Hful. split; [done|].
  rewrite Nat.add_0_r. f_equal. apply imap_ext. intros i x _. cbn.
  by rewrite Nat.add_succ_r.
Qed.

Lemma multi_zone_run (rt : Runtime) (w : World) (tzs : list string) :
  multi_zone_handler rt w {| timezones := tzs |} start =
    (inr (multi_zone_output (length tzs) (slots w tzs) (toISOString rt (clock w 0))),
     {| issued := get_request ∘ zone_url <$> tzs; reads := 1 |}).
Proof.
  unfold multi_zone_handler. rewrite bind_run. cbn [timezones].
  rewrite zone_slots_run. cbn [start issued reads length app].
  rewrite bind_run. unfold await, lift, Promise_all.
  destruct (slot_promises_all w 0 tzs) as [-> Hful]. cbn [outcome].
  cbn. rewrite Hful. unfold multi_zone_output, slots.
  by rewrite length_imap.
Qed.

Lemma slot_of_cases (tz : string) (o : FetchOutcome) :
  slot_of tz o = slot_error tz
  \/ exists data, fetched o = inr data /\ slot_success tz data = inr (slot_of tz o).
Proof.
  unfold slot_of. destruct (fetched o) as [e|data] eqn:Hf; cbn; [by left|].
  destruct (slot_success tz data) as [e|v] eqn:Hs; [by left|].
  right. by exists data.
Qed.


(** The scenario of two zones, the second unknown to the provider. *)
Example multi_zone_scenario :
  (multi_zone_handler utc_runtime zone_world
     {| timezones := ["America/New_York"; "Invalid/Zone"] |} start).1
  = inr (output (VObj
      [ ("count", VNum 2);
        ("times", VArr
           [ VObj [ ("timezone", VStr "America/New_York");
                    ("dateTime", VStr "2026-11-02T05:00:00.123");
                    ("date", VStr "11/02/2026"); ("time", VStr "05:00");
                    ("dayOfWeek", VStr "Monday"); ("dstActive", VBool false) ];
             VObj [ ("timezone", VStr "Invalid/Zone"); ("error", VStr "Failed to fetch") ] ]);
        ("fetchedAt", VStr "2026-11-02T10:00:00.123Z") ])).
Proof. reflexivity. Qed.

(** A body that is [null] is caught by the slot as well. *)
Example multi_zone_null_body :
  slot_of "Europe/London" (ok_json VNull) = slot_error "Europe/London".
Proof. reflexivity. Qed.



Lemma slot_of_timezone (tz : string) (o : FetchOutcome) :
  get (slot_of tz o) "timezone" = inr (VStr tz).
Proof.
  destruct (slot_of_cases tz o) as [->|(data & _ & Hs)]; [done|].
  revert Hs. generalize (slot_of tz o). intros v. unfold slot_success.
  destruct (get data "dateTime"); [done|]. cbn.
  destruct (get data "date"); [done|]. cbn.
  destruct (get data "time"); [done|]. cbn.
  destruct (get data "dayOfWeek"); [done|]. cbn.
  destruct (get data "dstActive"); [done|]. cbn.
  by intros [= <-].
Qed.

(** C9.  In the output of 'multi-zone', the [timezone] field of slot [i],
    success object or error marker alike, is the input string at index
    [i], whatever zone name the upstream answer carries. *)
Theorem multi_zone_echoes_input_zone (rt : Runtime) (w : World) (tzs : list string) :
  exists times stamp t,
    multi_zone_handler rt w {| timezones := tzs |} start
      = (inr (multi_zone_output (length tzs) times stamp), t)
    /\ forall i tz, tzs !! i = Some tz ->
         exists slot, times !! i = Some slot /\ get slot "timezone" = inr (VStr tz).
Proof.
  exists (slots w tzs), (toISOString rt (clock w 0)),
         {| issued := get_request ∘ zone_url <$> tzs; reads := 1 |}.
  split; [apply multi_zone_run|].
  intros i tz Hi. eexists. split.
  - unfold slots. by rewrite list_lookup_imap, Hi.
  - apply slot_of_timezone.
Qed.

Lemma multi_zone_echoes_input_zone_witness :
  exists times stamp t,
    multi_zone_handler utc_runtime zone_world
      {| timezones := ["America/New_York"; "europe/london"] |} start
      = (inr (multi_zone_output 2 times stamp), t)
    /\ exists slot, times !! 1%nat = Some slot
                    /\ get slot "timezone" = inr (VStr "europe/london")
                    /\ get new_york_time "timeZone" = inr (VStr "America/New_York").
Proof.
  destruct (multi_zone_echoes_input_zone utc_runtime zone_world
              ["America/New_York"; "europe/london"])
    as (times & stamp & t & Hrun & Hecho).
  exists times, stamp, t. split; [exact Hrun|].
  destruct (Hecho 1%nat "europe/london" eq_refl) as (slot & Hslot & Htz).
  exists slot. split; [exact Hslot|]. split; [exact Htz|]. reflexivity.
Defined.

(** ** 'overview' *)

(** C8.  When both providers answer with a list, 'overview' returns the
    fixed sample of 11 zone names, the lengths of the two lists as
    [totalTimezones] and [totalCountries], and the first 10 countries in
    upstream order as [sampleCountries]. *)
Theorem overview_counts_and_samples (rt : Runtime) (w : World) (zs cs : list Value) :
  fetched (respond w 0 (get_request zones_url)) = inr (VArr zs) ->
  fetched (respond w 1 (get_request countries_url)) = inr (VArr cs) ->
  overview_handler rt w start
    = (inr (overview_output zs cs (toISOString rt (clock w 0))),
       {| issued := [get_request zones_url; get_request countries_url]; reads := 1 |})
  /\ length majorZones = 11%nat
  /\ NoDup majorZones
  /\ (forall i c, take 10 cs !! i = Some c <-> (i < 10)%nat /\ cs !! i = Some c).
Proof.
  intros Hz Hc. split; [|split; [reflexivity|split]].
  - unfold overview_handler. rewrite bind_run, fetchJSON_run. cbn [start issued reads length app].
    rewrite bind_run, fetchJSON_run. cbn [issued reads length app].
    rewrite Hz, Hc. reflexivity.
  - apply (bool_decide_unpack _). vm_compute. exact I.
  - intros i c. rewrite lookup_take_Some. tauto.
Qed.

Lemma overview_counts_and_samples_witness :
  overview_handler utc_runtime (lists_world (VStr <$> majorZones) twelve_countries) start
    = (inr (overview_output (VStr <$> majorZones) twelve_countries
              "2026-11-02T10:00:00.123Z"),
       {| issued := [get_request zones_url; get_request countries_url]; reads := 1 |})
  /\ field "totalCountries"
       (field "output" (overview_output (VStr <$> majorZones) twelve_countries "")) = VNum 12
  /\ take 10 twelve_countries !! 9%nat = twelve_countries !! 9%nat.
Proof.
  destruct (overview_counts_and_samples utc_runtime
              (lists_world (VStr <$> majorZones) twelve_countries)
              (VStr <$> majorZones) twelve_countries eq_refl eq_refl)
    as (Hrun & _ & _ & _).
  split; [exact Hrun|]. split; reflexivity.
Defined.

(** ** 'convert' *)

Lemma get_field (v : Value) (k : string) :
  is_nullish v = false -> get v k = inr (field k v).
Proof. unfold field. destruct v; done. Qed.

Lemma get_defined (v x : Value) (k : string) :
  get v k = inr x -> is_nullish v = false.
Proof. destruct v; done. Qed.

(** C4.  When the conversion provider answers 2xx with a JSON body in
    which [conversionResult] is absent, 'convert' returns: [original] is
    an object, [converted.timezone] is the body's [toTimeZone], and the
    other five fields of [converted] are undefined. *)
Theorem convert_without_conversionResult
    (w : World) (input : ConvertInput) (r : Response) (data : Value) :
  respond w 0 (convert_request input) = Responded r ->
  ok r = true ->
  payload r = Some data ->
  get data "conversionResult" = inr VUndefined ->
  convert_handler w input start
    = (inr (partial_convert_output data),
       {| issued := [convert_request input]; reads := 0 |}).
Proof.
  intros Hr Hok Hbody Habsent.
  pose proof (get_defined _ _ _ Habsent) as Hdef.
  unfold convert_handler. rewrite bind_run. unfold fetch. cbn [start issued reads length app].
  rewrite Hr. rewrite bind_run. unfold await, lift. cbn -[ok json convert_output].
  rewrite Hok. cbn -[convert_output]. rewrite bind_run.
  unfold json. rewrite Hbody. cbn -[convert_output].
  unfold convert_output, partial_convert_output, lift.
  rewrite Habsent, !(get_field data) by done. reflexivity.
Qed.

Lemma convert_without_conversionResult_witness :
  convert_handler conversion_world amsterdam_to_la start
    = (inr (partial_convert_output partial_conversion),
       {| issued := [convert_request amsterdam_to_la]; reads := 0 |})
  /\ field "timezone" (field "converted" (field "output"
       (partial_convert_output partial_conversion))) = VStr "America/Los_Angeles"
  /\ field "timezone" (field "original" (field "output"
       (partial_convert_output partial_conversion))) = VStr "Europe/Amsterdam".
Proof.
  split; [|split; reflexivity].
  exact (convert_without_conversionResult conversion_world amsterdam_to_la
           {| status := 200; payload := Some partial_conversion |} partial_conversion
           eq_refl eq_refl eq_refl eq_refl).
Defined.

(** ** 'holidays' *)

Lemma year_or_current_run (rt : Runtime) (w : World) (y : option Z) :
  year_or_current rt w y start
    = (inr (chosen_year rt w y), {| issued := []; reads := year_reads y |}).
Proof.
  unfold year_or_current, chosen_year, year_reads.
  destruct y as [n|]; [destruct (n =? 0)|]; reflexivity.
Qed.

Lemma holidays_run (rt : Runtime) (w : World) (input : HolidaysInput) :
  let y := chosen_year rt w (year input) in
  let req := get_request (holidays_url y (countryCode input)) in
  holidays_handler rt w input start
    = (holidays_result y (countryCode input) (fetched (respond w 0 req)),
       {| issued := [req]; reads := year_reads (year input) |}).
Proof.
  intros y req. unfold holidays_handler.
  rewrite bind_run, year_or_current_run. fold y.
  rewrite bind_run, fetchJSON_run. cbn [issued reads length app]. fold req.
  rewrite bind_run. unfold await, lift, holidays_result. cbn [outcome].
  destruct (fetched (respond w 0 req)) as [e|data]; [reflexivity|].
  cbn -[mapM]. rewrite bind_run.
  destruct (array_items "data.map" data) as [e|items]; [reflexivity|].
  cbn -[mapM]. rewrite bind_run.
  destruct (mapM reshape_holiday items) as [e|hs]; reflexivity.
Qed.

Lemma holidays_result_fields (y : Z) (code : string) (r : Result Value) (out : Value) :
  holidays_result y code r = inr out ->
  field "countryCode" (field "output" out) = VStr (toUpperCase code)
  /\ field "year" (field "output" out) = VNum y.
Proof.
  unfold holidays_result. destruct r as [e|data]; [done|]. cbn -[mapM].
  destruct (array_items "data.map" data) as [e|items]; [done|]. cbn -[mapM].
  destruct (mapM reshape_holiday items) as [e|hs]; [done|]. cbn.
  by intros [= <-].
Qed.

Lemma reshape_holiday_defined (h : Value) :
  is_nullish h = false -> exists v, reshape_holiday h = inr v.
Proof.
  intros Hh. unfold reshape_holiday. rewrite !(get_field h) by done. by eexists.
Qed.

Lemma reshape_holidays_defined (items : list Value) :
  Forall (fun h => is_nullish h = false) items ->
  exists holidays, mapM reshape_holiday items = inr holidays.
Proof.
  induction 1 as [|h rest Hh Hrest [holidays IH]]; [by eexists|].
  destruct (reshape_holiday_defined h Hh) as [v Hv].
  cbn [mapM]. rewrite Hv, IH. by eexists.
Qed.

Lemma holidays_result_defined (y : Z) (code : string) (items : list Value) :
  Forall (fun h => is_nullish h = false) items ->
  exists out, holidays_result y code (inr (VArr items)) = inr out.
Proof.
  intros Hall. destruct (reshape_holidays_defined items Hall) as [holidays Hmap].
  unfold holidays_result. cbn -[mapM]. rewrite Hmap. by eexists.
Qed.




(** The scenario [{countryCode: "us", year: 2026}]. *)
Example holidays_scenario :
  exists holidays t,
    holidays_handler utc_runtime holiday_world
      {| countryCode := "us"; year := Some 2026 |} start
    = (inr (output (VObj [ ("countryCode", VStr "US"); ("year", VNum 2026);
                           ("totalHolidays", VNum 3); ("holidays", VArr holidays) ])), t)
    /\ issued t = [get_request "https://date.nager.at/api/v3/publicholidays/2026/US"]
    /\ reads t = 0%nat
    /\ holidays !! 1%nat
       = Some (VObj [ ("date", VStr "2026-11-11"); ("name", VStr "Veterans Day");
                      ("localName", VStr "Veterans Day"); ("isGlobal", VBool true);
                      ("types", VArr [VStr "Public"]) ]).
Proof. eexists _, _. repeat split; reflexivity. Qed.



(** C7.  When [year] is omitted, 'holidays' reads the clock while handling
    the request and uses the year of that reading both in the URL it asks
    for and as the echoed [year].  It returns whenever the provider
    answers 2xx with an array without null. *)
Theorem holidays_default_year (rt : Runtime) (w : World) (code : string) :
  let y := getFullYear rt (clock w 0) in
  let req := get_request (holidays_url y code) in
  exists r,
    holidays_handler rt w {| countryCode := code; year := None |} start
      = (r, {| issued := [req]; reads := 1 |})
    /\ (forall out, r = inr out -> field "year" (field "output" out) = VNum y)
    /\ (forall items, fetched (respond w 0 req) = inr (VArr items) ->
          Forall (fun h => is_nullish h = false) items ->
          exists out, r = inr out).
Proof.
  intros y req. eexists. split; [apply holidays_run|]. split.
  - intros out Hout. by apply holidays_result_fields in Hout as [_ ?].
  - intros items Hitems Hall. cbn [year countryCode chosen_year]. fold y req.
    rewrite Hitems. by apply holidays_result_defined.
Qed.

Lemma holidays_default_year_witness :
  exists out,
    holidays_handler utc_runtime holiday_world {| countryCode := "us"; year := None |} start
      = (inr out,
         {| issued := [get_request "https://date.nager.at/api/v3/publicholidays/2026/US"];
            reads := 1 |})
    /\ field "year" (field "output" out) = VNum 2026.
Proof.
  destruct (holidays_default_year utc_runtime holiday_world "us") as (r & Hrun & Hyear & Hret).
  destruct (Hret [new_year; veterans_day; christmas] eq_refl) as [out ->];
    [repeat constructor|].
  exists out. split; [exact Hrun | by apply Hyear].
Defined.

(** C10.  A request with [year] 0 is handled exactly as one without
    [year]: 0 is falsy, so the year of the clock reading is used in the
    URL and echoed as [year], and 0 is not. *)
Theorem holidays_year_zero_is_default (rt : Runtime) (w : World) (code : string) :
  let y := getFullYear rt (clock w 0) in
  let req := get_request (holidays_url y code) in
  holidays_handler rt w {| countryCode := code; year := Some 0 |}
    = holidays_handler rt w {| countryCode := code; year := None |}
  /\ exists r,
       holidays_handler rt w {| countryCode := code; year := Some 0 |} start
         = (r, {| issued := [req]; reads := 1 |})
       /\ (forall out, r = inr out -> field "year" (field "output" out) = VNum y)
       /\ (forall items, fetched (respond w 0 req) = inr (VArr items) ->
             Forall (fun h => is_nullish h = false) items ->
             exists out, r = inr out).
Proof.
  intros y req. split; [reflexivity|].
  eexists. split; [apply holidays_run|]. split.
  - intros out Hout. by apply holidays_result_fields in Hout as [_ ?].
  - intros items Hitems Hall. cbn [year countryCode chosen_year Z.eqb]. fold y req.
    rewrite Hitems. by apply holidays_result_defined.
Qed.

Lemma holidays_year_zero_is_default_witness :
  exists out,
    holidays_handler utc_runtime holiday_world {| countryCode := "US"; year := Some 0 |} start
      = (inr out,
         {| issued := [get_request "https://date.nager.at/api/v3/publicholidays/2026/US"];
            reads := 1 |})
    /\ field "year" (field "output" out) = VNum 2026.
Proof.
  destruct (holidays_year_zero_is_default utc_runtime holiday_world "US")
    as (_ & r & Hrun & Hyear & Hret).
  destruct (Hret [new_year; veterans_day; christmas] eq_refl) as [out ->];
    [repeat constructor|].
  exists out. split; [exact Hrun | by apply Hyear].
Defined.

(** ** 'full-report' *)

Lemma Promise_all_pair {A} (s1 s2 : nat) (r1 r2 : Result A) :
  outcome (Promise_all [ {| settled_at := s1; outcome := r1 |};
                         {| settled_at := s2; outcome := r2 |} ])
    = match r1, r2 with
      | inr a, inr b => inr [a; b]
      | inl e, inr _ => inl e
      | inr _, inl e => inl e
      | inl e1, inl e2 => inl (if (s1 <=? s2)%nat then e1 else e2)
      end.
Proof.
  unfold Promise_all. destruct r1, r2; cbn; try reflexivity.
  by destruct (s1 <=? s2)%nat.
Qed.

Lemma filter_upcoming_inr (rt : Runtime) (today : string) (hs kept : list Value) :
  filter_upcoming rt today hs = inr kept ->
  kept = upcoming_filter rt today hs /\ Forall (fun h => is_nullish h = false) hs.
Proof.
  revert kept. induction hs as [|h rest IH]; intros kept; cbn.
  - by intros [= <-].
  - destruct (get h "date") as [e|d] eqn:Hd; [done|]. cbn.
    destruct (filter_upcoming rt today rest) as [e|kept'] eqn:Hrest; [done|]. cbn.
    intros [= <-]. destruct (IH kept' eq_refl) as [-> Hall].
    pose proof (get_defined _ _ _ Hd) as Hh.
    split; [|by constructor].
    unfold field. rewrite Hd. reflexivity.
Qed.

Lemma filter_upcoming_defined (rt : Runtime) (today : string) (hs : list Value) :
  Forall (fun h => is_nullish h = false) hs ->
  filter_upcoming rt today hs = inr (upcoming_filter rt today hs).
Proof.
  induction 1 as [|h rest Hh Hrest IH]; [reflexivity|].
  cbn. rewrite (get_field h) by done. cbn. rewrite IH. reflexivity.
Qed.

Lemma upcoming_entry_run (rt : Runtime) (w : World) (h : Value) (t : Trace) :
  is_nullish h = false ->
  upcoming_entry rt w h t
    = (inr (entry_of rt h (clock w (reads t))),
       {| issued := issued t; reads := S (reads t) |}).
Proof. intros Hh. unfold upcoming_entry. rewrite !(get_field h) by done. reflexivity. Qed.

Lemma upcoming_entries_run (rt : Runtime) (w : World) (hs : list Value)
    (reqs : list Request) (n : nat) :
  Forall (fun h => is_nullish h = false) hs ->
  mapM (upcoming_entry rt w) hs {| issued := reqs; reads := n |}
    = (inr (imap (fun i h => entry_of rt h (clock w (n + i))) hs),
       {| issued := reqs; reads := n + length hs |}).
Proof.
  intros Hall. revert n. induction Hall as [|h rest Hh Hrest IH]; intros n.
  - cbn. by rewrite Nat.add_0_r.
  - cbn [mapM]. rewrite bind_run, upcoming_entry_run by done.
    cbn [issued reads]. rewrite bind_run, IH. unfold mret, M_ret.
    f_equal; [|cbn [length]; f_equal; lia].
    cbn [imap]. rewrite Nat.add_0_r. do 2 f_equal.
    apply imap_ext. intros i x _. cbn. by rewrite Nat.add_succ_r.
Qed.

Lemma upcoming_filter_defined (rt : Runtime) (today : string) (hs : list Value) (k : nat) :
  Forall (fun h => is_nullish h = false) hs ->
  Forall (fun h => is_nullish h = false) (take k (upcoming_filter rt today hs)).
Proof.
  intros Hall. apply Forall_take. unfold upcoming_filter.
  rewrite List.Forall_forall in *. intros h Hin. apply Hall.
  by apply filter_In in Hin as [Hin _].
Qed.

(** 'full-report' returns once both bodies are in, the time body is not
    null and the other is an array without null. *)
Lemma full_report_returns (rt : Runtime) (w : World) (input : FullReportInput)
    (timeData : Value) (hs : list Value) :
  fetched (respond w 0 (get_request (zone_url (fr_timezone input)))) = inr timeData ->
  fetched (respond w 1 (get_request
    (holidays_url (getFullYear rt (clock w 0)) (fr_countryCode input)))) = inr (VArr hs) ->
  is_nullish timeData = false ->
  Forall (fun h => is_nullish h = false) hs ->
  full_report_handler rt w input start
    = (inr (full_report_output rt w input timeData hs),
       {| issued := report_requests rt w input;
          reads := 3 + length (take 5 (upcoming_filter rt (today_of rt w) hs)) |}).
Proof.
  intros Htime Hhol Hdef Hall. unfold full_report_handler.
  rewrite bind_run. unfold current_year at 1.
  rewrite bind_run. cbn [now start reads issued M_ret mret].
  rewrite bind_run, fetchJSON_run. cbn [issued reads length app].
  rewrite bind_run, fetchJSON_run. cbn [issued reads length app].
  rewrite Htime, Hhol. rewrite bind_run. unfold await, lift at 1.
  rewrite Promise_all_pair. cbn [item lookup list_lookup default id].
  rewrite bind_run. cbn [now reads issued].
  rewrite bind_run. unfold lift at 1. cbn [array_items mret Result_ret].
  rewrite bind_run. unfold lift at 1. fold (today_of rt w).
  rewrite filter_upcoming_defined by done.
  rewrite bind_run, upcoming_entries_run by by apply upcoming_filter_defined.
  unfold lift. rewrite !(get_field timeData) by done.
  unfold full_report_output, upcoming_of, report_requests.
  rewrite length_imap. cbn. do 3 f_equal; lia.
Qed.

(** When 'full-report' returns, both bodies were in and well-shaped. *)
Lemma full_report_inv (rt : Runtime) (w : World) (input : FullReportInput)
    (out : Value) (t : Trace) :
  full_report_handler rt w input start = (inr out, t) ->
  exists timeData hs,
    fetched (respond w 0 (get_request (zone_url (fr_timezone input)))) = inr timeData
    /\ fetched (respond w 1 (get_request
         (holidays_url (getFullYear rt (clock w 0)) (fr_countryCode input)))) = inr (VArr hs)
    /\ is_nullish timeData = false
    /\ Forall (fun h => is_nullish h = false) hs.
Proof.
  unfold full_report_handler.
  rewrite bind_run. unfold current_year at 1.
  rewrite bind_run. cbn [now start reads issued M_ret mret].
  rewrite bind_run, fetchJSON_run. cbn [issued reads length app].
  rewrite bind_run, fetchJSON_run. cbn [issued reads length app].
  rewrite bind_run. unfold await, lift at 1. rewrite Promise_all_pair.
  destruct (fetched (respond w 0 _)) as [e1|timeData];
    destruct (fetched (respond w 1 _)) as [e2|holidays]; try discriminate.
  cbn [item lookup list_lookup default id].
  rewrite bind_run. cbn [now reads issued].
  rewrite bind_run. unfold lift at 1.
  destruct holidays as [| | | | | |hs|]; try discriminate.
  cbn [array_items mret Result_ret].
  rewrite bind_run. unfold lift at 1.
  destruct (filter_upcoming rt _ hs) as [e|kept] eqn:Hkept; [discriminate|].
  apply filter_upcoming_inr in Hkept as [-> Hall].
  rewrite bind_run, upcoming_entries_run by by apply upcoming_filter_defined.
  rewrite bind_run. unfold lift at 1.
  destruct (is_nullish timeData) eqn:Hdef.
  { destruct timeData; discriminate. }
  intros _. by exists timeData, hs.
Qed.

Lemma upcomingHolidays_of_output (rt : Runtime) (w : World) (input : FullReportInput)
    (timeData : Value) (hs : list Value) :
  upcomingHolidays_of (full_report_output rt w input timeData hs)
    = VArr (upcoming_of rt w (take 5 (upcoming_filter rt (today_of rt w) hs))).
Proof. reflexivity. Qed.

Lemma full_report_upcoming (rt : Runtime) (w : World) (input : FullReportInput)
    (out : Value) (t : Trace) :
  full_report_handler rt w input start = (inr out, t) ->
  exists hs,
    fetched (respond w 1 (get_request
      (holidays_url (getFullYear rt (clock w 0)) (fr_countryCode input)))) = inr (VArr hs)
    /\ upcomingHolidays_of out
       = VArr (upcoming_of rt w (take 5 (upcoming_filter rt (today_of rt w) hs))).
Proof.
  intros Hrun.
  destruct (full_report_inv _ _ _ _ _ Hrun) as (timeData & hs & Htime & Hhol & Hdef & Hall).
  rewrite (full_report_returns _ _ _ _ _ Htime Hhol Hdef Hall) in Hrun.
  injection Hrun as <- _. exists hs. split; [exact Hhol | apply upcomingHolidays_of_output].
Qed.



Lemma ceil_div_bounds (a b : Z) :
  0 < b -> b * (ceil_div a b - 1) < a <= b * ceil_div a b.
Proof.
  intros Hb. unfold ceil_div.
  pose proof (Z.div_mod (- a) b ltac:(lia)) as Hdm.
  pose proof (Z.mod_pos_bound (- a) b Hb) as Hmod.
  nia.
Qed.

Lemma entry_of_date (rt : Runtime) (h : Value) (t : Z) :
  field "date" (entry_of rt h t) = field "date" h.
Proof. reflexivity. Qed.

Lemma entry_of_daysUntil (rt : Runtime) (h : Value) (t : Z) :
  field "daysUntil" (entry_of rt h t) = days_until rt (field "date" h) t.
Proof. reflexivity. Qed.

(** C6.  When 'full-report' returns, the entry at index [i] of
    [upcomingHolidays] has as [daysUntil] the ceiling of (the epoch
    milliseconds of its date minus the clock read for that entry) divided
    by 86400000, and NaN when the date has no epoch milliseconds.  The
    value can be 0 and can be negative. *)
Theorem full_report_days_until :
  (forall (rt : Runtime) (w : World) (input : FullReportInput) (out : Value) (t : Trace),
     full_report_handler rt w input start = (inr out, t) ->
     exists ups,
       upcomingHolidays_of out = VArr ups
       /\ forall i e, ups !! i = Some e ->
            match Date_getTime rt (field "date" e) with
            | Some ms =>
                exists d, field "daysUntil" e = VNum d
                  /\ d = ceil_div (ms - clock w (2 + i)) 86400000
                  /\ 86400000 * (d - 1) < ms - clock w (2 + i) <= 86400000 * d
            | None => field "daysUntil" e = VNaN
            end)
  /\ (exists out t rest,
        full_report_handler utc_runtime today_world new_york_us start = (inr out, t)
        /\ upcomingHolidays_of out
           = VArr (VObj [ ("date", VStr "2026-11-02"); ("name", VStr "All Souls' Day");
                          ("daysUntil", VNum 0) ] :: rest))
  /\ (exists out t rest,
        full_report_handler utc_runtime midnight_world new_york_us start = (inr out, t)
        /\ upcomingHolidays_of out
           = VArr (VObj [ ("date", VStr "2026-11-02"); ("name", VStr "All Souls' Day");
                          ("daysUntil", VNum (-1)) ] :: rest)).
Proof.
  split; [|split].
  - intros rt w input out t Hrun.
    destruct (full_report_upcoming _ _ _ _ _ Hrun) as (hs & _ & Hups).
    eexists. split; [exact Hups|].
    intros i e Hi. unfold upcoming_of in Hi. rewrite list_lookup_imap in Hi.
    destruct (take 5 _ !! i) as [h|]; [|done]. injection Hi as <-.
    rewrite entry_of_date, entry_of_daysUntil.
    unfold days_until. destruct (Date_getTime rt (field "date" h)) as [ms|]; cbn;
      [|reflexivity].
    eexists. split; [reflexivity|]. split; [reflexivity|].
    apply (ceil_div_bounds _ 86400000). lia.
  - eexists _, _, _. split; vm_compute; reflexivity.
  - eexists _, _, _. split; vm_compute; reflexivity.
Qed.

Lemma full_report_days_until_witness :
  exists out t ups,
    full_report_handler utc_runtime holiday_world new_york_us start = (inr out, t)
    /\ upcomingHolidays_of out = VArr ups
    /\ field "daysUntil" <$> ups = [VNum 9; VNum 53].
Proof.
  assert (Hrun : full_report_handler utc_runtime holiday_world new_york_us start
                 = (inr (full_report_output utc_runtime holiday_world new_york_us
                           new_york_time [new_year; veterans_day; christmas]),
                    {| issued := report_requests utc_runtime holiday_world new_york_us;
                       reads := 5 |}))
    by (vm_compute; reflexivity).
  destruct full_report_days_until as (Hdays & _ & _).
  destruct (Hdays _ _ _ _ _ Hrun) as (ups & Hups & _).
  eexists _, _, ups. split; [exact Hrun|]. split; [exact Hups|].
  vm_compute in Hups. injection Hups as <-. reflexivity.
Defined.

(** ** Propagation of upstream failures *)

Lemma tame_ret {A} (x : A) : tame (mret x : Result A).
Proof. intros e. discriminate. Qed.

Lemma tame_bind {A B} (r : Result A) (f : A -> Result B) :
  tame r -> (forall x, tame (f x)) -> tame (r ≫= f).
Proof.
  intros Hr Hf. destruct r as [e|x]; [|apply Hf].
  intros e' [= <-]. by apply Hr.
Qed.

Lemma tame_get (v : Value) (k : string) : tame (get v k).
Proof. intros e. destruct v; cbn; intros [= <-] || discriminate; reflexivity. Qed.

Lemma tame_get_opt (v : Value) (k : string) : tame (get_opt v k).
Proof. unfold get_opt. destruct (is_nullish v); [apply tame_ret | apply tame_get]. Qed.

Lemma tame_slice0 (v : Value) (n : nat) : tame (slice0 v n).
Proof. intros e. destruct v; cbn; intros [= <-] || discriminate; reflexivity. Qed.

Lemma tame_array_items (method : string) (v : Value) : tame (array_items method v).
Proof. intros e. destruct v; cbn; intros [= <-] || discriminate; reflexivity. Qed.

Lemma tame_mapM {A B} (f : A -> Result B) (l : list A) :
  (forall x, tame (f x)) -> tame (mapM f l).
Proof.
  intros Hf. induction l as [|x l IH]; [apply tame_ret|].
  cbn [mapM]. apply tame_bind; [apply Hf|]. intros y.
  apply tame_bind; [exact IH|]. intros k. apply tame_ret.
Qed.

Lemma tame_filter_upcoming (rt : Runtime) (today : string) (hs : list Value) :
  tame (filter_upcoming rt today hs).
Proof.
  induction hs as [|h rest IH]; [apply tame_ret|].
  cbn [filter_upcoming]. apply tame_bind; [apply tame_get|]. intros d.
  apply tame_bind; [exact IH|]. intros kept. apply tame_ret.
Qed.

Create HintDb tame.
#[local] Hint Resolve tame_ret tame_get tame_get_opt tame_slice0 tame_array_items
  tame_filter_upcoming : tame.

Ltac tame_steps :=
  repeat first
    [ apply tame_bind; [solve [auto with tame]|intros ?]
    | solve [auto with tame]
    | apply tame_mapM; intros ? ].

Lemma tame_current_time_output (data : Value) : tame (current_time_output data).
Proof. unfold current_time_output. tame_steps. Qed.

Lemma tame_convert_output (data : Value) : tame (convert_output data).
Proof. unfold convert_output. tame_steps. Qed.

Lemma quiet_ret {A} (x : A) : quiet (mret x : M A).
Proof. intros t. split; [reflexivity | apply tame_ret]. Qed.

Lemma quiet_lift {A} (r : Result A) : tame r -> quiet (lift r).
Proof. intros Hr t. split; [reflexivity | exact Hr]. Qed.

Lemma quiet_now (w : World) : quiet (now w).
Proof. intros t. split; [reflexivity | apply tame_ret]. Qed.

Lemma quiet_bind {A B} (m : M A) (f : A -> M B) :
  quiet m -> (forall x, quiet (f x)) -> quiet (m ≫= f).
Proof.
  intros Hm Hf t. rewrite bind_run. specialize (Hm t).
  destruct (m t) as [[e|x] t']; cbn in Hm; destruct Hm as [Ht' Htame].
  - split; [exact Ht'|]. intros e' [= <-]. by apply Htame.
  - destruct (Hf x t') as [Ht'' Htame']. split; [congruence | exact Htame'].
Qed.

Lemma quiet_mapM {A B} (f : A -> M B) (l : list A) :
  (forall x, quiet (f x)) -> quiet (mapM f l).
Proof.
  intros Hf. induction l as [|x l IH]; [apply quiet_ret|].
  cbn [mapM]. apply quiet_bind; [apply Hf|]. intros y.
  apply quiet_bind; [exact IH|]. intros k. apply quiet_ret.
Qed.

Ltac quiet_steps :=
  repeat first
    [ apply quiet_ret
    | apply quiet_now
    | apply quiet_lift; solve [auto with tame | tame_steps]
    | apply quiet_mapM; intros ?
    | apply quiet_bind; [|intros ?] ].

Lemma fetched_failed (o : FetchOutcome) :
  call_failed o = true -> fetched o = inl (failure_of o).
Proof. destruct o as [reason|r]; cbn; [done|]. by intros ->. Qed.

Lemma fetched_inl (o : FetchOutcome) (e : Thrown) :
  fetched o = inl e ->
  (call_failed o = true /\ e = failure_of o) \/ (call_failed o = false /\ e = SyntaxError).
Proof.
  destruct o as [reason|r]; cbn.
  - intros [= <-]. by left.
  - destruct (negb (ok r)); cbn.
    + intros [= <-]. by left.
    + unfold json. destruct (payload r); [done|]. intros [= <-]. by right.
Qed.

Lemma fetched_inr (o : FetchOutcome) (v : Value) :
  fetched o = inr v -> call_failed o = false.
Proof.
  intros Hv. destruct (call_failed o) eqn:Hf; [|done].
  apply fetched_failed in Hf. congruence.
Qed.

Lemma propagates_single (w : World) (req : Request) :
  propagates w [req] (fetched (respond w 0 req)).
Proof.
  split.
  - intros (n & o & Hn & Hf). destruct n as [|n]; [|done].
    injection Hn as <-. eexists. by apply fetched_failed.
  - intros e He Hup. apply fetched_inl in He as [[Hf ->]|[_ ->]]; [|done].
    by exists 0%nat, (respond w 0 req).
Qed.

Lemma propagates_pair (w : World) (req1 req2 : Request) (s1 s2 : nat) :
  propagates w [req1; req2]
    (outcome (Promise_all [ {| settled_at := s1; outcome := fetched (respond w 0 req1) |};
                            {| settled_at := s2; outcome := fetched (respond w 1 req2) |} ])).
Proof.
  rewrite Promise_all_pair. split.
  - intros (n & o & Hn & Hf).
    destruct n as [|[|n]]; [| |done]; injection Hn as <-;
      rewrite (fetched_failed _ Hf);
      [destruct (fetched (respond w 1 req2)) | destruct (fetched (respond w 0 req1))];
      eexists; reflexivity.
  - intros e He Hup.
    assert (fetched (respond w 0 req1) = inl e \/ fetched (respond w 1 req2) = inl e)
      as [H|H].
    { destruct (fetched (respond w 0 req1)), (fetched (respond w 1 req2));
        try discriminate; injection He as <-; auto.
      destruct (s1 <=? s2)%nat; auto. }
    + apply fetched_inl in H as [[Hf ->]|[_ ->]]; [|done].
      by exists 0%nat, (respond w 0 req1).
    + apply fetched_inl in H as [[Hf ->]|[_ ->]]; [|done].
      by exists 1%nat, (respond w 1 req2).
Qed.

(** Awaiting a batch and going on with steps that send nothing. *)
Lemma await_then {A B} (w : World) (reqs : list Request) (n : nat)
    (p : Promise A) (k : A -> M B) :
  propagates w reqs (outcome p) ->
  (forall x, quiet (k x)) ->
  exists r t,
    (await p ≫= k) {| issued := reqs; reads := n |} = (r, t)
    /\ issued t = reqs
    /\ propagates w reqs r
    /\ (forall e, outcome p = inl e -> r = inl e).
Proof.
  intros [Hfail Hup] Hk. rewrite bind_run. unfold await, lift.
  destruct (outcome p) as [e|x].
  - eexists _, _. split; [reflexivity|]. split; [reflexivity|].
    split; [split; [intros _; by eexists|] | by intros e' [= <-]].
    intros e' [= <-]. by apply Hup.
  - destruct (Hk x {| issued := reqs; reads := n |}) as [Hsent Htame].
    destruct (k x _) as [r t]. cbn in Hsent, Htame.
    exists r, t. split; [reflexivity|]. split; [exact Hsent|]. split; [|done].
    split.
    + intros Hsome. by destruct (Hfail Hsome).
    + intros e He Hupe. apply Htame in He. congruence.
Qed.

Lemma convert_run (w : World) (input : ConvertInput) :
  convert_handler w input start
    = (await {| settled_at := settle w 0;
                outcome := fetched (respond w 0 (convert_request input)) |}
         ≫= fun data => lift (convert_output data))
        {| issued := [convert_request input]; reads := 0 |}.
Proof.
  unfold convert_handler. rewrite bind_run. unfold fetch.
  cbn [start issued reads length app]. rewrite !bind_run. unfold await, lift, fetched.
  cbn [outcome]. destruct (respond w 0 (convert_request input)) as [reason|r]; [reflexivity|].
  cbn -[ok json convert_output]. destruct (negb (ok r)); [reflexivity|].
  rewrite bind_run. reflexivity.
Qed.

Ltac await_batch w r t Ht Hprop Hexact :=
  lazymatch goal with
  | |- context [(await ?p ≫= ?k) {| issued := ?reqs; reads := ?n |}] =>
      destruct (await_then w reqs n p k) as (r & t & -> & Ht & Hprop & Hexact);
      [ | | exists r, t; rewrite Ht; split; [reflexivity|]; split; [exact Hprop|] ]
  end.

(** Every handler without a try/catch awaits its whole batch and then
    sends nothing more. *)
Lemma handle_propagates (rt : Runtime) (w : World) (c : Call) :
  catches_per_item c = false ->
  exists r t,
    handle rt w c start = (r, t)
    /\ propagates w (issued t) r
    /\ forall req, issued t = [req] ->
         call_failed (respond w 0 req) = true ->
         r = inl (failure_of (respond w 0 req)).
Proof.
  destruct c as [|input|input|input|input|input]; [| | | |done|]; intros _; cbn [handle].
  - unfold overview_handler.
    rewrite bind_run, fetchJSON_run. cbn [start issued reads length app].
    rewrite bind_run, fetchJSON_run. cbn [issued reads length app].
    await_batch w r t Ht Hprop Hexact.
    + apply propagates_pair.
    + intros both. cbv zeta. quiet_steps.
    + discriminate.
  - unfold current_time_handler.
    rewrite bind_run, fetchJSON_run. cbn [start issued reads length app].
    await_batch w r t Ht Hprop Hexact.
    + apply propagates_single.
    + intros data. apply quiet_lift, tame_current_time_output.
    + intros req [= <-] Hf. apply Hexact. by apply fetched_failed.
  - rewrite convert_run.
    await_batch w r t Ht Hprop Hexact.
    + apply propagates_single.
    + intros data. apply quiet_lift, tame_convert_output.
    + intros req [= <-] Hf. apply Hexact. by apply fetched_failed.
  - unfold holidays_handler.
    rewrite bind_run, year_or_current_run.
    rewrite bind_run, fetchJSON_run. cbn [issued reads length app].
    await_batch w r t Ht Hprop Hexact.
    + apply propagates_single.
    + intros data. quiet_steps.
    + intros req [= <-] Hf. apply Hexact. by apply fetched_failed.
  - unfold full_report_handler.
    rewrite bind_run. unfold current_year at 1.
    rewrite bind_run. cbn [now start reads issued M_ret mret].
    rewrite bind_run, fetchJSON_run. cbn [issued reads length app].
    rewrite bind_run, fetchJSON_run. cbn [issued reads length app].
    await_batch w r t Ht Hprop Hexact.
    + apply propagates_pair.
    + intros both. cbv zeta. quiet_steps.
    + discriminate.
Qed.

(** C3, amended.  In every handler but 'multi-zone', a failed upstream
    call (no answer, or an answer outside 200..299) is not caught: when
    some call of the batch fails the handler throws; an upstream failure
    it throws is that of a failed call of its batch, with the message
    [API error: <status>] for an answer outside 200..299; and a handler
    with a single call throws exactly the failure of that call.  When no
    call fails the handler may still throw, and then a SyntaxError or a
    TypeError raised on the body. *)
Theorem upstream_failures_propagate (rt : Runtime) (w : World) (c : Call) :
  catches_per_item c = false ->
  exists r t,
    handle rt w c start = (r, t)
    /\ (some_call_failed w (issued t) -> exists e, r = inl e)
    /\ (forall e, r = inl e -> upstream_failure e = true ->
          exists n o, respond w n <$> issued t !! n = Some o
                      /\ call_failed o = true
                      /\ e = match o with
                             | Unreachable reason => FetchFailure reason
                             | Responded resp =>
                                 Error ("API error: " +:+ decimal (status resp))
                             end)
    /\ (forall req, issued t = [req] ->
          call_failed (respond w 0 req) = true ->
          r = inl (failure_of (respond w 0 req)))
    /\ ((forall n o, respond w n <$> issued t !! n = Some o -> call_failed o = false) ->
        forall e, r = inl e -> e = SyntaxError \/ exists what, e = TypeError what).
Proof.
  intros Hc. destruct (handle_propagates rt w c Hc) as (r & t & Hrun & [Hfail Hup] & Hexact).
  exists r, t. split; [exact Hrun|]. split; [exact Hfail|].
  split; [|split; [exact Hexact|]].
  - intros e He Hue. destruct (Hup e He Hue) as (n & o & Hn & Hf & ->).
    by exists n, o.
  - intros Hnone e He. destruct e as [message|reason| |what]; eauto.
    + destruct (Hup _ He eq_refl) as (n & o & Hn & Hf & _).
      rewrite (Hnone n o Hn) in Hf. discriminate.
    + destruct (Hup _ He eq_refl) as (n & o & Hn & Hf & _).
      rewrite (Hnone n o Hn) in Hf. discriminate.
Qed.

Lemma upstream_failures_propagate_witness :
  exists t,
    handle utc_runtime down_world (CurrentTime london) start
      = (inl (Error "API error: 503"), t)
    /\ issued t = [get_request (zone_url "Europe/London")].
Proof.
  destruct (upstream_failures_propagate utc_runtime down_world (CurrentTime london) eq_refl)
    as (r & t & Hrun & _ & _ & Hexact & _).
  exists t. rewrite Hrun.
  vm_compute in Hrun. injection Hrun as <- <-.
  split; reflexivity.
Defined.

(** C3 as stated fails: the time provider answers 200 with the body
    [null], no call fails, and 'current-time' throws a TypeError on
    [data.timeZone]. *)
Lemma null_body_throws_without_failure :
  catches_per_item (CurrentTime london) = false
  /\ handle utc_runtime null_world (CurrentTime london) start
     = (inl (TypeError "Cannot read properties of null or undefined: timeZone"),
        {| issued := [get_request (zone_url "Europe/London")]; reads := 0 |})
  /\ call_failed (respond null_world 0 (get_request (zone_url "Europe/London"))) = false
  /\ ~ throws_iff_upstream_fails utc_runtime null_world (CurrentTime london).
Proof.
  split; [reflexivity|]. split; [reflexivity|]. split; [reflexivity|].
  unfold throws_iff_upstream_fails.
  change (handle utc_runtime null_world (CurrentTime london) start)
    with (inl (TypeError "Cannot read properties of null or undefined: timeZone") : Result Value,
          {| issued := [get_request (zone_url "Europe/London")]; reads := 0 |}).
  intros [Hthrows _].
  destruct Hthrows as (n & o & Hn & Hf); [by eexists|].
  cbn [issued] in Hn. destruct n as [|n]; [|done].
  injection Hn as <-. discriminate.
Qed.

(** * Further properties of the handlers *)

(** ** [fetchJSON] *)

(** X1.  [fetchJSON] sends one GET request for the URL, with the
    User-Agent header and no body.  Its promise fulfils with [v] exactly
    when the answer is a response with status in 200..299 whose body is
    the JSON value [v]; a status outside 200..299 rejects with
    [API error: <status>] whatever the body, no answer rejects with the
    failure of [fetch], and a body that is not JSON rejects with a
    SyntaxError. *)
Theorem fetchJSON_contract (w : World) (u : string) (t : Trace) :
  let o := respond w (length (issued t)) (get_request u) in
  exists p,
    fetchJSON w u t
      = (inr p,
         {| issued := issued t ++ [ {| method := "GET"; url := u;
                                       headers := [("User-Agent", "timezone-intel/1.0")];
                                       body := None |} ];
            reads := reads t |})
    /\ (forall v, outcome p = inr v <->
          exists r, o = Responded r /\ 200 <= status r <= 299 /\ payload r = Some v)
    /\ (forall r, o = Responded r -> ~ 200 <= status r <= 299 ->
          outcome p = inl (Error ("API error: " +:+ decimal (status r))))
    /\ (forall r, o = Responded r -> 200 <= status r <= 299 -> payload r = None ->
          outcome p = inl SyntaxError)
    /\ (forall reason, o = Unreachable reason -> outcome p = inl (FetchFailure reason)).
Proof.
  intros o. eexists. split; [apply fetchJSON_run|]. cbn [outcome]. fold o.
  assert (Hok : forall r, ok r = true <-> 200 <= status r <= 299).
  { intros r. unfold ok. rewrite andb_true_iff, !Z.leb_le. tauto. }
  repeat split.
  - intros Hv. destruct o as [reason|r]; [done|]. cbn in Hv.
    destruct (ok r) eqn:Hr; cbn in Hv; [|done].
    exists r. split; [done|]. split; [by apply Hok|].
    unfold json in Hv. destruct (payload r); [|done]. by injection Hv as ->.
  - intros (r & -> & Hs & Hp). cbn. apply Hok in Hs. rewrite Hs. cbn.
    unfold json. by rewrite Hp.
  - intros r -> Hs. cbn. destruct (ok r) eqn:Hr; [by apply Hok in Hr|done].
  - intros r -> Hs Hp. cbn. apply Hok in Hs. rewrite Hs. cbn.
    unfold json. by rewrite Hp.
  - by intros reason ->.
Qed.

Lemma fetchJSON_contract_witness :
  exists p t,
    fetchJSON zone_world (zone_url "Invalid/Zone") start = (inr p, t)
    /\ outcome p = inl (Error "API error: 400")
    /\ length (issued t) = 1%nat.
Proof.
  destruct (fetchJSON_contract zone_world (zone_url "Invalid/Zone") start)
    as (p & Hrun & _ & Hstatus & _).
  eexists p, _. split; [exact Hrun|]. split; [|reflexivity].
  apply (Hstatus {| status := 400; payload := None |}); [reflexivity|cbn; lia].
Defined.

(** ** [encodeURIComponent] in the zone URL *)

Lemma hex_digit_unreserved (n : nat) : (n < 16)%nat -> is_unreserved (hex_digit n) = true.
Proof.
  intros Hn. do 16 (destruct n as [|n]; [reflexivity|]). lia.
Qed.

Lemma encodeURIComponent_chars (s : string) :
  Forall (fun c => is_unreserved c = true \/ c = "%"%char)
         (list_ascii_of_string (encodeURIComponent s)).
Proof.
  induction s as [|c s IH]; [constructor|].
  cbn [encodeURIComponent]. destruct (is_unreserved c) eqn:Hc; cbn [list_ascii_of_string].
  - constructor; [by left | exact IH].
  - pose proof (nat_ascii_bounded c) as Hb.
    constructor; [by right|].
    constructor; [left; apply hex_digit_unreserved, Nat.Div0.div_lt_upper_bound; lia|].
    constructor; [left; apply hex_digit_unreserved, Nat.mod_upper_bound; lia|].
    exact IH.
Qed.

(** X2.  The zone URL is the fixed prefix followed by the encoded zone,
    and the encoded zone is made of unreserved characters and [%] only:
    no character of the input can end the query parameter or start
    another part of the URL. *)
Theorem zone_url_keeps_one_parameter (tz : string) :
  zone_url tz
    = "https://timeapi.io/api/time/current/zone?timeZone=" +:+ encodeURIComponent tz
  /\ Forall (fun c => is_unreserved c = true \/ c = "%"%char)
            (list_ascii_of_string (encodeURIComponent tz))
  /\ forall c, c ∈ url_delimiters -> c ∉ list_ascii_of_string (encodeURIComponent tz).
Proof.
  split; [reflexivity|]. split; [apply encodeURIComponent_chars|].
  intros c Hc Hin.
  pose proof (encodeURIComponent_chars tz) as Hall.
  rewrite List.Forall_forall in Hall.
  specialize (Hall c (proj1 (list_elem_of_In _ _) Hin)).
  unfold url_delimiters in Hc.
  repeat (apply elem_of_cons in Hc as [->|Hc]; [by destruct Hall|]).
  by apply elem_of_nil in Hc.
Qed.

Lemma zone_url_keeps_one_parameter_witness :
  zone_url "Europe/London&x=1 #y"
    = "https://timeapi.io/api/time/current/zone?timeZone=Europe%2FLondon%26x%3D1%20%23y"
  /\ "&"%char ∉ list_ascii_of_string (encodeURIComponent "Europe/London&x=1 #y").
Proof.
  destruct (zone_url_keeps_one_parameter "Europe/London&x=1 #y") as (_ & _ & Hnone).
  split; [reflexivity|]. apply Hnone. unfold url_delimiters. apply elem_of_cons. by left.
Defined.

Lemma percent_decode_byte (c : ascii) :
  ascii_of_nat (16 * hex_value (hex_digit (nat_of_ascii c / 16))
                + hex_value (hex_digit (nat_of_ascii c mod 16))) = c.
Proof. destruct c as [[] [] [] [] [] [] [] []]; reflexivity. Qed.

Lemma percent_decode_encode (s : string) :
  percent_decode (encodeURIComponent s) = s.
Proof.
  induction s as [|c s IH]; [reflexivity|].
  cbn [encodeURIComponent]. destruct (is_unreserved c) eqn:Hc.
  - assert (c <> "%"%char) as Hne by (intros ->; discriminate).
    cbn [percent_decode]. rewrite IH.
    destruct c as [[] [] [] [] [] [] [] []]; try reflexivity; try discriminate.
  - cbn [percent_decode]. rewrite percent_decode_byte, IH. reflexivity.
Qed.

Lemma append_cancel (p a b : string) : p +:+ a = p +:+ b -> a = b.
Proof. induction p as [|c p IH]; cbn; [done|]. intros [= H]. by apply IH. Qed.

(** X3.  Encoding loses nothing: two zones with the same zone URL are the
    same string, so distinct inputs of 'current-time', 'multi-zone' and
    'full-report' never share a request. *)
Theorem zone_url_injective (tz1 tz2 : string) :
  zone_url tz1 = zone_url tz2 -> tz1 = tz2.
Proof.
  unfold zone_url. intros H. apply append_cancel in H.
  rewrite <- (percent_decode_encode tz1), <- (percent_decode_encode tz2).
  by rewrite H.
Qed.

Lemma zone_url_injective_witness :
  "Etc/GMT+1" = "Etc/GMT+1"
  /\ zone_url "Etc/GMT+1" <> zone_url "Etc/GMT-1"
  /\ percent_decode (encodeURIComponent "Etc/GMT+1") = "Etc/GMT+1".
Proof.
  split; [exact (zone_url_injective "Etc/GMT+1" "Etc/GMT+1" eq_refl)|].
  split; [|reflexivity].
  intros H. apply zone_url_injective in H. discriminate.
Defined.

(** ** 'current-time' *)

Lemma current_time_run (w : World) (input : CurrentTimeInput) :
  current_time_handler w input start
    = (fetched (respond w 0 (get_request (zone_url (ct_timezone input))))
         ≫= current_time_output,
       {| issued := [get_request (zone_url (ct_timezone input))]; reads := 0 |}).
Proof.
  unfold current_time_handler. rewrite bind_run, fetchJSON_run.
  cbn [start issued reads length app]. rewrite bind_run. unfold await, lift. cbn [outcome].
  by destruct (fetched _).
Qed.

Lemma current_time_output_defined (data : Value) :
  is_nullish data = false -> current_time_output data = inr (current_time_view data).
Proof.
  intros Hd. unfold current_time_output. rewrite !(get_field data) by done. reflexivity.
Qed.

Lemma current_time_output_inr (data out : Value) :
  current_time_output data = inr out -> is_nullish data = false.
Proof. destruct data; done. Qed.

(** X4.  'current-time' sends one request, for the encoded zone, and
    never reads the clock.  It returns exactly when the call succeeds with
    a JSON body other than [null]; the output then has the twelve fields
    read from the body, [timezone] being the body's [timeZone] and not
    the input string, and a field the body lacks is undefined. *)
Theorem current_time_contract (w : World) (input : CurrentTimeInput) :
  let req := get_request (zone_url (ct_timezone input)) in
  exists r,
    current_time_handler w input start = (r, {| issued := [req]; reads := 0 |})
    /\ forall out,
         r = inr out <->
         exists data, fetched (respond w 0 req) = inr data
                      /\ is_nullish data = false
                      /\ out = current_time_view data.
Proof.
  intros req. eexists. split; [apply current_time_run|]. fold req.
  intros out. split.
  - destruct (fetched (respond w 0 req)) as [e|data]; [done|]. cbn.
    intros Hout. pose proof (current_time_output_inr _ _ Hout) as Hd.
    rewrite current_time_output_defined in Hout by done. injection Hout as <-.
    by exists data.
  - intros (data & -> & Hd & ->). cbn. by apply current_time_output_defined.
Qed.

Lemma current_time_contract_witness :
  exists out,
    current_time_handler london_world {| ct_timezone := "europe/london" |} start
      = (inr out, {| issued := [get_request (zone_url "europe/london")]; reads := 0 |})
    /\ field "timezone" (field "output" out) = VStr "Europe/London"
    /\ field "year" (field "output" out) = VUndefined.
Proof.
  destruct (current_time_contract london_world {| ct_timezone := "europe/london" |})
    as (r & Hrun & Hret).
  assert (r = inr (current_time_view london_time)) as ->.
  { apply Hret. by exists london_time. }
  eexists. split; [exact Hrun|]. split; reflexivity.
Defined.

(** ** 'multi-zone' *)

Lemma slot_success_defined (tz : string) (data : Value) :
  is_nullish data = false ->
  slot_success tz data
    = inr (VObj [ ("timezone", VStr tz); ("dateTime", field "dateTime" data);
                  ("date", field "date" data); ("time", field "time" data);
                  ("dayOfWeek", field "dayOfWeek" data);
                  ("dstActive", field "dstActive" data) ]).
Proof.
  intros Hd. unfold slot_success. rewrite !(get_field data) by done. reflexivity.
Qed.





(** X6.  'multi-zone' and 'current-time' agree: when 'current-time'
    returns for a zone, a 'multi-zone' slot made from the same answer
    carries the same [dateTime], [date], [time], [dayOfWeek] and
    [dstActive]. *)
Theorem multi_zone_agrees_with_current_time
    (rt : Runtime) (w1 w2 : World) (tzs : list string) (i : nat) (tz : string)
    (out : Value) (t : Trace) :
  tzs !! i = Some tz ->
  respond w2 i (get_request (zone_url tz)) = respond w1 0 (get_request (zone_url tz)) ->
  current_time_handler w1 {| ct_timezone := tz |} start = (inr out, t) ->
  exists times stamp t' slot,
    multi_zone_handler rt w2 {| timezones := tzs |} start
      = (inr (multi_zone_output (length tzs) times stamp), t')
    /\ times !! i = Some slot
    /\ forall k, k ∈ shared_time_fields ->
         field k slot = field k (field "output" out).
Proof.
  intros Hi Hsame Hrun. rewrite current_time_run in Hrun. cbn [ct_timezone] in Hrun.
  injection Hrun as Hout _.
  destruct (fetched (respond w1 0 _)) as [e|data] eqn:Hf; [done|]. cbn in Hout.
  pose proof (current_time_output_inr _ _ Hout) as Hd.
  rewrite current_time_output_defined in Hout by done. injection Hout as <-.
  eexists _, _, _, _. split; [apply multi_zone_run|]. split.
  { unfold slots. by rewrite list_lookup_imap, Hi. }
  intros k Hk. unfold slot_of. rewrite Hsame, Hf. cbn.
  rewrite slot_success_defined by done.
  unfold shared_time_fields in Hk.
  repeat (apply elem_of_cons in Hk as [->|Hk]; [reflexivity|]).
  by apply elem_of_nil in Hk.
Qed.

Lemma multi_zone_agrees_with_current_time_witness :
  exists out times stamp t t' slot,
    current_time_handler london_world {| ct_timezone := "Europe/London" |} start = (inr out, t)
    /\ multi_zone_handler utc_runtime london_world
         {| timezones := ["Europe/Paris"; "Europe/London"] |} start
       = (inr (multi_zone_output 2 times stamp), t')
    /\ times !! 1%nat = Some slot
    /\ field "time" slot = field "time" (field "output" out)
    /\ field "time" slot = VStr "10:00".
Proof.
  destruct (multi_zone_agrees_with_current_time utc_runtime london_world london_world
              ["Europe/Paris"; "Europe/London"] 1 "Europe/London"
              (current_time_view london_time)
              {| issued := [get_request (zone_url "Europe/London")]; reads := 0 |}
              eq_refl eq_refl eq_refl)
    as (times & stamp & t' & slot & Hrun & Hslot & Hsame).
  eexists _, times, stamp, _, t', slot.
  split; [reflexivity|]. split; [exact Hrun|]. split; [exact Hslot|].
  assert (Htime : field "time" slot
                  = field "time" (field "output" (current_time_view london_time))).
  { apply Hsame. unfold shared_time_fields. apply (bool_decide_unpack _). reflexivity. }
  split; [exact Htime|]. rewrite Htime. reflexivity.
Defined.

(** ** The requests of an entrypoint *)

Lemma await_quiet_issued {A B} (p : Promise A) (k : A -> M B) (t : Trace) :
  (forall x, quiet (k x)) -> issued ((await p ≫= k) t).2 = issued t.
Proof.
  intros Hk. rewrite bind_run. unfold await, lift.
  destruct (outcome p) as [e|x]; [reflexivity|]. apply Hk.
Qed.

Lemma handle_requests (rt : Runtime) (w : World) (c : Call) :
  issued (handle rt w c start).2 = requests_of rt w c.
Proof.
  destruct c as [|input|input|input|input|input]; cbn [handle requests_of].
  - unfold overview_handler.
    rewrite bind_run, fetchJSON_run. cbn [start issued reads length app].
    rewrite bind_run, fetchJSON_run. cbn [issued reads length app].
    rewrite await_quiet_issued; [reflexivity|].
    intros both. cbv zeta. quiet_steps.
  - by rewrite current_time_run.
  - rewrite convert_run, await_quiet_issued; [reflexivity|].
    intros data. apply quiet_lift, tame_convert_output.
  - pose proof (holidays_run rt w input) as Hrun. cbv zeta in Hrun. by rewrite Hrun.
  - destruct input as [tzs]. by rewrite multi_zone_run.
  - unfold full_report_handler.
    rewrite bind_run. unfold current_year at 1.
    rewrite bind_run. cbn [now start reads issued M_ret mret].
    rewrite bind_run, fetchJSON_run. cbn [issued reads length app].
    rewrite bind_run, fetchJSON_run. cbn [issued reads length app].
    rewrite await_quiet_issued; [reflexivity|].
    intros both. cbv zeta. quiet_steps.
Qed.

(** X7.  The requests of an entrypoint are fixed before any answer is
    in: overview and full-report always send 2, current-time, convert and
    holidays 1, multi-zone one per zone, whatever the provider answers;
    nothing is retried and nothing is skipped after a failure.  Two worlds
    whose clocks agree on the first reading see the same requests. *)
Theorem requests_fixed_by_input (rt : Runtime) (w : World) (c : Call) :
  issued (handle rt w c start).2 = requests_of rt w c
  /\ length (issued (handle rt w c start).2) = calls_of c
  /\ forall w', clock w' 0 = clock w 0 ->
       issued (handle rt w' c start).2 = issued (handle rt w c start).2.
Proof.
  split; [apply handle_requests|]. split.
  - rewrite handle_requests. destruct c; cbn; try reflexivity. by rewrite length_fmap.
  - intros w' Hclock. rewrite !handle_requests.
    destruct c as [|input|input|input|input|input]; cbn; try reflexivity.
    + unfold chosen_year. by rewrite Hclock.
    + unfold report_requests. by rewrite Hclock.
Qed.

Lemma requests_fixed_by_input_witness :
  issued (handle utc_runtime down_world (FullReport new_york_us) start).2
    = issued (handle utc_runtime holiday_world (FullReport new_york_us) start).2
  /\ issued (handle utc_runtime down_world (FullReport new_york_us) start).2
     = [ get_request "https://timeapi.io/api/time/current/zone?timeZone=America%2FNew_York";
         get_request "https://date.nager.at/api/v3/publicholidays/2026/US" ].
Proof.
  destruct (requests_fixed_by_input utc_runtime holiday_world (FullReport new_york_us))
    as (_ & _ & Hsame).
  split; [apply Hsame|]; reflexivity.
Defined.

(** ** 'convert' *)

Lemma get_opt_field (v : Value) (k : string) : get_opt v k = inr (opt_field k v).
Proof.
  unfold get_opt, opt_field. destruct (is_nullish v) eqn:Hv; [reflexivity|].
  by apply get_field.
Qed.

Lemma convert_output_defined (data : Value) :
  is_nullish data = false -> convert_output data = inr (convert_view data).
Proof.
  intros Hd. unfold convert_output. rewrite !(get_field data) by done. cbn.
  rewrite !get_opt_field. reflexivity.
Qed.

Lemma convert_output_inr (data out : Value) :
  convert_output data = inr out -> is_nullish data = false.
Proof. destruct data; done. Qed.

(** X8.  'convert' sends one POST to the conversion URL whose JSON body
    carries the input as [fromTimeZone], [dateTime], [toTimeZone] and an
    empty [dstAmbiguity], and never reads the clock.  It returns exactly
    when the answer has a status in 200..299 and a JSON body other than
    [null], whatever the shape of that body. *)
Theorem convert_contract (w : World) (input : ConvertInput) :
  let req := {| method := "POST";
                url := "https://timeapi.io/api/conversion/converttimezone";
                headers := [("Content-Type", "application/json")];
                body := Some (VObj [ ("fromTimeZone", VStr (fromTimezone input));
                                     ("dateTime", VStr (dateTime input));
                                     ("toTimeZone", VStr (toTimezone input));
                                     ("dstAmbiguity", VStr "") ]) |} in
  exists r,
    convert_handler w input start = (r, {| issued := [req]; reads := 0 |})
    /\ forall out,
         r = inr out <->
         exists data, fetched (respond w 0 req) = inr data
                      /\ is_nullish data = false
                      /\ out = convert_view data.
Proof.
  intros req.
  assert (Hrun : convert_handler w input start
                 = (fetched (respond w 0 req) ≫= convert_output,
                    {| issued := [req]; reads := 0 |})).
  { rewrite convert_run, bind_run. unfold await, lift. cbn [outcome].
    change (convert_request input) with req.
    by destruct (fetched (respond w 0 req)). }
  eexists. split; [exact Hrun|]. intros out. split.
  - destruct (fetched (respond w 0 req)) as [e|data]; [done|]. cbn.
    intros Hout. pose proof (convert_output_inr _ _ Hout) as Hd.
    rewrite convert_output_defined in Hout by done. injection Hout as <-.
    by exists data.
  - intros (data & -> & Hd & ->). cbn. by apply convert_output_defined.
Qed.

Lemma convert_contract_witness :
  exists out t,
    convert_handler (answering (VObj [])) amsterdam_to_la start = (inr out, t)
    /\ out = convert_view (VObj [])
    /\ field "timezone" (field "converted" (field "output" out)) = VUndefined.
Proof.
  destruct (convert_contract (answering (VObj [])) amsterdam_to_la) as (r & Hrun & Hret).
  assert (r = inr (convert_view (VObj []))) as ->.
  { apply Hret. by exists (VObj []). }
  eexists _, _. split; [exact Hrun|]. split; reflexivity.
Defined.

(** X9.  In the output of 'convert', a [conversionResult] that is [null]
    gives the same output as an absent one, and one that is present gives
    its [dateTime], [date], [time], [dayOfWeek] and [dstActive] as the
    fields of [converted], unchanged. *)
Theorem convert_passes_conversionResult (w : World) (input : ConvertInput)
    (data cr : Value) :
  fetched (respond w 0 (convert_request input)) = inr data ->
  get data "conversionResult" = inr cr ->
  exists out t,
    convert_handler w input start = (inr out, t)
    /\ (is_nullish cr = true -> out = partial_convert_output data)
    /\ (is_nullish cr = false ->
        forall k, k ∈ conversion_fields ->
          field k (field "converted" (field "output" out)) = field k cr).
Proof.
  intros Hf Hcr. pose proof (get_defined _ _ _ Hcr) as Hd.
  destruct (convert_contract w input) as (r & Hrun & Hret).
  assert (r = inr (convert_view data)) as ->.
  { apply Hret. by exists data. }
  eexists _, _. split; [exact Hrun|].
  assert (field "conversionResult" data = cr) as Hfield.
  { unfold field. by rewrite Hcr. }
  unfold convert_view. rewrite Hfield. unfold opt_field. split.
  - intros ->. reflexivity.
  - intros ->. intros k Hk. unfold conversion_fields in Hk.
    repeat (apply elem_of_cons in Hk as [->|Hk]; [reflexivity|]).
    by apply elem_of_nil in Hk.
Qed.

Lemma convert_passes_conversionResult_witness :
  exists out t,
    convert_handler (answering full_conversion) amsterdam_to_la start = (inr out, t)
    /\ field "dateTime" (field "converted" (field "output" out)) = VStr "2026-02-01T01:00:00"
    /\ field "dstActive" (field "converted" (field "output" out)) = VBool false.
Proof.
  destruct (convert_passes_conversionResult (answering full_conversion) amsterdam_to_la
              full_conversion (field "conversionResult" full_conversion) eq_refl eq_refl)
    as (out & t & Hrun & _ & Hpass).
  exists out, t. split; [exact Hrun|].
  split; (rewrite Hpass; [reflexivity | reflexivity | apply (bool_decide_unpack _); reflexivity]).
Defined.

(** ** 'holidays' *)

Lemma reshape_holiday_reshaped (h : Value) :
  is_nullish h = false -> reshape_holiday h = inr (reshaped h).
Proof.
  intros Hh. unfold reshape_holiday. rewrite !(get_field h) by done. reflexivity.
Qed.

Lemma reshape_holidays_inr (items holidays : list Value) :
  mapM reshape_holiday items = inr holidays <->
  Forall (fun h => is_nullish h = false) items /\ holidays = reshaped <$> items.
Proof.
  revert holidays. induction items as [|h rest IH]; intros holidays.
  - cbn. split; [by intros [= <-]|by intros [_ ->]].
  - cbn [mapM]. destruct (is_nullish h) eqn:Hh.
    + split; [by destruct h|]. intros [Hall _]. inversion Hall. congruence.
    + rewrite reshape_holiday_reshaped by done. cbn -[mapM].
      destruct (mapM reshape_holiday rest) as [e|hs] eqn:Hrest; cbn.
      * split; [done|]. intros [Hall ->]. inversion Hall as [|? ? _ Hall']; subst.
        discriminate (proj2 (IH (reshaped <$> rest)) (conj Hall' eq_refl)).
      * destruct (proj1 (IH hs) eq_refl) as [Hall ->].
        split; [intros [= <-]; split; [by constructor|done]|].
        by intros [_ ->].
Qed.

Lemma holidays_result_inr (y : Z) (code : string) (r : Result Value) (out : Value) :
  holidays_result y code r = inr out <->
  exists items, r = inr (VArr items)
                /\ Forall (fun h => is_nullish h = false) items
                /\ out = holidays_view y code items.
Proof.
  unfold holidays_result. destruct r as [e|data].
  { split; [done|]. by intros (items & ? & _). }
  cbn -[mapM]. destruct data; cbn -[mapM];
    try (split; [done|]; by intros (items' & ? & _)).
  destruct (mapM reshape_holiday items) as [e|hs] eqn:Hmap; cbn.
  - split; [done|]. intros (items' & [= <-] & Hall & _).
    pose proof (proj2 (reshape_holidays_inr items (reshaped <$> items)) (conj Hall eq_refl)).
    congruence.
  - apply reshape_holidays_inr in Hmap as [Hall ->]. split.
    + intros [= <-]. exists items. split; [done|]. split; [done|].
      unfold holidays_view. by rewrite length_fmap.
    + intros (items' & [= <-] & _ & ->). unfold holidays_view. by rewrite length_fmap.
Qed.



(** X11.  'holidays' returns exactly when the call succeeds with a JSON
    array that holds no [null].  It then reports every upstream holiday,
    in upstream order and without filtering: [totalHolidays] is the length
    of the upstream array, and entry [i] has the five fields [date],
    [name], [localName], [isGlobal] (the upstream [global]) and [types] of
    upstream holiday [i], a missing one being undefined. *)
Theorem holidays_reports_every_holiday (rt : Runtime) (w : World) (input : HolidaysInput) :
  let y := chosen_year rt w (year input) in
  let req := get_request (holidays_url y (countryCode input)) in
  exists r t,
    holidays_handler rt w input start = (r, t)
    /\ forall out,
         r = inr out <->
         exists items,
           fetched (respond w 0 req) = inr (VArr items)
           /\ Forall (fun h => is_nullish h = false) items
           /\ out = output (VObj
                [ ("countryCode", VStr (toUpperCase (countryCode input)));
                  ("year", VNum y);
                  ("totalHolidays", VNum (Z.of_nat (length items)));
                  ("holidays", VArr (reshaped <$> items)) ]).
Proof.
  intros y req. eexists _, _. split; [apply holidays_run|]. fold y req.
  intros out. apply holidays_result_inr.
Qed.

Lemma holidays_reports_every_holiday_witness :
  exists out t,
    holidays_handler utc_runtime holiday_world {| countryCode := "us"; year := None |} start
      = (inr out, t)
    /\ field "totalHolidays" (field "output" out) = VNum 3
    /\ field "holidays" (field "output" out)
       = VArr [reshaped new_year; reshaped veterans_day; reshaped christmas].
Proof.
  destruct (holidays_reports_every_holiday utc_runtime holiday_world
              {| countryCode := "us"; year := None |}) as (r & t & Hrun & Hret).
  assert (r = inr (holidays_view 2026 "us" [new_year; veterans_day; christmas])) as ->.
  { apply Hret. exists [new_year; veterans_day; christmas].
    split; [reflexivity|]. split; [repeat constructor | reflexivity]. }
  eexists _, _. split; [exact Hrun|]. split; reflexivity.
Defined.

(** ** 'overview' *)

Lemma overview_run (rt : Runtime) (w : World) :
  overview_handler rt w start
    = (await (Promise_all
         [ {| settled_at := settle w 0;
              outcome := fetched (respond w 0 (get_request zones_url)) |};
           {| settled_at := settle w 1;
              outcome := fetched (respond w 1 (get_request countries_url)) |} ])
       ≫= fun both =>
            totalTimezones ← lift (get (item both 0) "length");
            totalCountries ← lift (get (item both 1) "length");
            sampleCountries ← lift (slice0 (item both 1) 10);
            stamp ← now w;
            mret (output (VObj
              [ ("totalTimezones", totalTimezones);
                ("sampleTimezones", VArr (VStr <$> majorZones));
                ("totalCountries", totalCountries);
                ("sampleCountries", sampleCountries);
                ("endpoints", endpoints);
                ("fetchedAt", VStr (toISOString rt stamp)) ])))
        {| issued := [get_request zones_url; get_request countries_url]; reads := 0 |}.
Proof.
  unfold overview_handler.
  rewrite bind_run, fetchJSON_run. cbn [start issued reads length app].
  rewrite bind_run, fetchJSON_run. reflexivity.
Qed.

Lemma await_rejected {A B} (p : Promise A) (k : A -> M B) (t : Trace) (e : Thrown) :
  outcome p = inl e -> (await p ≫= k) t = (inl e, t).
Proof. intros Hp. rewrite bind_run. unfold await, lift. by rewrite Hp. Qed.







(** ** Two calls at once *)

Lemma full_report_awaits (rt : Runtime) (w : World) (input : FullReportInput) :
  exists k : list Value -> M Value,
    full_report_handler rt w input start
      = (await (Promise_all
           [ {| settled_at := settle w 0;
                outcome := fetched (respond w 0 (get_request (zone_url (fr_timezone input)))) |};
             {| settled_at := settle w 1;
                outcome := fetched (respond w 1 (get_request
                  (holidays_url (getFullYear rt (clock w 0)) (fr_countryCode input)))) |} ])
         ≫= k)
          {| issued := report_requests rt w input; reads := 1 |}.
Proof.
  unfold full_report_handler. eexists.
  rewrite bind_run. unfold current_year at 1.
  rewrite bind_run. cbn [now start reads issued M_ret mret].
  rewrite bind_run, fetchJSON_run. cbn [issued reads length app].
  rewrite bind_run, fetchJSON_run. reflexivity.
Qed.

Lemma pair_rejection {B} (w : World) (o0 o1 : FetchOutcome) (k : list Value -> M B)
    (t : Trace) :
  let r := ((await (Promise_all [ {| settled_at := settle w 0; outcome := fetched o0 |};
                                  {| settled_at := settle w 1; outcome := fetched o1 |} ])
             ≫= k) t).1 in
  (call_failed o0 = true -> (exists v, fetched o1 = inr v) -> r = inl (failure_of o0))
  /\ (call_failed o1 = true -> (exists v, fetched o0 = inr v) -> r = inl (failure_of o1))
  /\ (call_failed o0 = true -> call_failed o1 = true ->
      r = inl (failure_of (if (settle w 0 <=? settle w 1)%nat then o0 else o1))).
Proof.
  intros r. subst r. repeat split.
  - intros H0 [v H1]. erewrite await_rejected; [reflexivity|].
    by rewrite Promise_all_pair, (fetched_failed _ H0), H1.
  - intros H1 [v H0]. erewrite await_rejected; [reflexivity|].
    by rewrite Promise_all_pair, (fetched_failed _ H1), H0.
  - intros H0 H1. erewrite await_rejected; [reflexivity|].
    rewrite Promise_all_pair, (fetched_failed _ H0), (fetched_failed _ H1).
    by destruct (settle w 0 <=? settle w 1)%nat.
Qed.

(** X13.  In 'overview' and 'full-report', which await two calls at once:
    when one call fails and the other gives a body, the handler throws
    the failure of the failed call; when both fail, it throws the failure
    of the call whose answer arrives first (of the first call when both
    arrive together). *)
Theorem two_call_batch_error (rt : Runtime) (w : World) (c : Call) (req0 req1 : Request) :
  catches_per_item c = false ->
  requests_of rt w c = [req0; req1] ->
  let o0 := respond w 0 req0 in
  let o1 := respond w 1 req1 in
  let r := (handle rt w c start).1 in
  (call_failed o0 = true -> (exists v, fetched o1 = inr v) -> r = inl (failure_of o0))
  /\ (call_failed o1 = true -> (exists v, fetched o0 = inr v) -> r = inl (failure_of o1))
  /\ (call_failed o0 = true -> call_failed o1 = true ->
      r = inl (failure_of (if (settle w 0 <=? settle w 1)%nat then o0 else o1))).
Proof.
  intros Hc Hreqs o0 o1.
  destruct c as [|input|input|input|input|input]; try discriminate; cbn [handle].
  - injection Hreqs as <- <-. rewrite overview_run. apply pair_rejection.
  - injection Hreqs as <- <-.
    destruct (full_report_awaits rt w input) as [k ->]. apply pair_rejection.
Qed.

Lemma two_call_batch_error_witness :
  (handle utc_runtime both_down_world (FullReport new_york_us) start).1
    = inl (FetchFailure "connection refused")
  /\ (handle utc_runtime
        {| respond := respond both_down_world; settle := fun n => n;
           clock := clock both_down_world |}
        (FullReport new_york_us) start).1
     = inl (Error "API error: 503").
Proof.
  split.
  - destruct (two_call_batch_error utc_runtime both_down_world (FullReport new_york_us)
                _ _ eq_refl eq_refl) as (_ & _ & Hboth).
    exact (Hboth eq_refl eq_refl).
  - destruct (two_call_batch_error utc_runtime
                {| respond := respond both_down_world; settle := fun n => n;
                   clock := clock both_down_world |}
                (FullReport new_york_us) _ _ eq_refl eq_refl) as (_ & _ & Hboth).
    exact (Hboth eq_refl eq_refl).
Defined.

(** ** 'full-report' *)





(** X16.  In an output of 'full-report', an entry whose date has epoch
    milliseconds [ms] counts whole days upwards: [daysUntil] is at least
    1 exactly when [ms] lies after the clock read for that entry, be it
    by a millisecond; it is 1 for the whole following 24 hours; and it is
    0 exactly when [ms] lies within the 24 hours up to that reading. *)
Theorem full_report_days_until_sign (rt : Runtime) (w : World) (input : FullReportInput)
    (out : Value) (t : Trace) :
  full_report_handler rt w input start = (inr out, t) ->
  exists ups,
    upcomingHolidays_of out = VArr ups
    /\ forall i e ms,
         ups !! i = Some e ->
         Date_getTime rt (field "date" e) = Some ms ->
         exists n,
           field "daysUntil" e = VNum n
           /\ (1 <= n <-> clock w (2 + i) < ms)
           /\ (n = 1 <-> clock w (2 + i) < ms <= clock w (2 + i) + 86400000)
           /\ (n = 0 <-> clock w (2 + i) - 86400000 < ms <= clock w (2 + i)).
Proof.
  intros Hrun.
  destruct (full_report_upcoming _ _ _ _ _ Hrun) as (hs & _ & Hups).
  eexists. split; [exact Hups|].
  intros i e ms Hi Hms. unfold upcoming_of in Hi. rewrite list_lookup_imap in Hi.
  destruct (take 5 _ !! i) as [h|]; [|done]. injection Hi as <-.
  rewrite entry_of_date in Hms. rewrite entry_of_daysUntil.
  unfold days_until. rewrite Hms. eexists. split; [reflexivity|].
  pose proof (ceil_div_bounds (ms - clock w (2 + i)) ms_per_day ltac:(reflexivity)) as Hb.
  change ms_per_day with 86400000 in *.
  change (clock w (S (S i))) with (clock w (2 + i)).
  lia.
Qed.

Lemma full_report_days_until_sign_witness :
  exists out t e,
    full_report_handler utc_runtime
      (calendar_world [VObj [("date", VStr "2026-11-03"); ("name", VStr "Culture Day")]]
                      (fun _ => tuesday_midnight - 1))
      new_york_us start = (inr out, t)
    /\ upcomingHolidays_of out = VArr [e]
    /\ field "daysUntil" e = VNum 1.
Proof.
  assert (Hrun : exists out t,
            full_report_handler utc_runtime
              (calendar_world [VObj [("date", VStr "2026-11-03"); ("name", VStr "Culture Day")]]
                              (fun _ => tuesday_midnight - 1))
              new_york_us start = (inr out, t)).
  { eexists _, _. vm_compute. reflexivity. }
  destruct Hrun as (out & t & Hrun).
  destruct (full_report_days_until_sign _ _ _ _ _ Hrun) as (ups & Hups & Hsign).
  assert (exists e, ups = [e]) as [e ->].
  { vm_compute in Hrun. injection Hrun as <- _. vm_compute in Hups. injection Hups as <-.
    by eexists. }
  exists out, t, e. split; [exact Hrun|]. split; [exact Hups|].
  assert (field "date" e = VStr "2026-11-03") as Hdate.
  { vm_compute in Hrun. injection Hrun as <- _. vm_compute in Hups. by injection Hups as <-. }
  destruct (Hsign 0%nat e tuesday_midnight eq_refl) as (n & -> & _ & Hone & _).
  { rewrite Hdate. reflexivity. }
  f_equal. apply Hone. cbn. unfold tuesday_midnight. lia.
Defined.

(** ** Country codes and statuses *)





Lemma decimal_injective (z1 z2 : Z) : decimal z1 = decimal z2 -> z1 = z2.
Proof.
  assert (Hnorm : forall z, Z.to_int z <> Decimal.Pos Decimal.Nil
                            /\ Z.to_int z <> Decimal.Neg Decimal.Nil).
  { intros [|p|p]; cbn; split; try discriminate;
      intros [= H]; by apply DecimalPos.Unsigned.to_uint_nonnil in H. }
  unfold decimal. intros H. apply (f_equal NilZero.int_of_string) in H.
  destruct (Hnorm z1) as [? ?], (Hnorm z2) as [? ?].
  rewrite !NilZero.isi in H by done. injection H as H.
  by apply DecimalZ.to_int_inj.
Qed.

(** X18.  The message of an [API error] determines the status: two
    responses with different statuses never give the same error. *)
Theorem api_error_status (r1 r2 : Response) :
  api_error r1 = api_error r2 -> status r1 = status r2.
Proof.
  unfold api_error. intros [= H]. apply append_cancel in H. by apply decimal_injective.
Qed.

Lemma api_error_status_witness :
  status {| status := 404; payload := None |} = status {| status := 404; payload := Some VNull |}
  /\ api_error {| status := 404; payload := None |} = Error "API error: 404"
  /\ api_error {| status := 404; payload := None |}
     <> api_error {| status := 500; payload := None |}.
Proof.
  split; [exact (api_error_status {| status := 404; payload := None |}
                   {| status := 404; payload := Some VNull |} eq_refl)|].
  split; [reflexivity|].
  intros H. apply api_error_status in H. discriminate.
Defined.

(** ** The registration document *)

(** X19.  The registration document names one base URL throughout: the
    web endpoint is the base, the image and the A2A endpoint are the base
    followed by [/icon.png] and [/.well-known/agent.json].  The base is
    the environment variable when that is set and not empty, and the
    production URL when it is unset or empty; it is never empty. *)
Theorem erc8004_base_url (env : option string) :
  exists base,
    field "image" (erc8004 env) = VStr (base +:+ "/icon.png")
    /\ field "services" (erc8004 env)
       = VArr [ VObj [ ("name", VStr "web"); ("endpoint", VStr base) ];
                VObj [ ("name", VStr "A2A");
                       ("endpoint", VStr (base +:+ "/.well-known/agent.json"));
                       ("version", VStr "0.3.0") ] ]
    /\ base <> ""
    /\ (forall s, env = Some s -> s <> "" -> base = s)
    /\ (env = None \/ env = Some "" ->
        base = "https://timezone-intel-production.up.railway.app").
Proof.
  exists (baseUrl env). split; [reflexivity|]. split; [reflexivity|].
  unfold baseUrl. destruct env as [s|].
  - destruct (String.eqb_spec s "") as [->|Hs].
    + split; [done|]. split; [by intros s [= <-]|done].
    + split; [done|]. split; [by intros s' [= <-]|].
      intros [|[= ->]]; done.
  - split; [done|]. split; [done|done].
Qed.

Lemma erc8004_base_url_witness :
  field "image" (erc8004 (Some "http://localhost:3000")) = VStr "http://localhost:3000/icon.png"
  /\ field "image" (erc8004 (Some ""))
     = VStr "https://timezone-intel-production.up.railway.app/icon.png".
Proof.
  destruct (erc8004_base_url (Some "http://localhost:3000")) as (b1 & Hi1 & _ & _ & Hset & _).
  destruct (erc8004_base_url (Some "")) as (b2 & Hi2 & _ & _ & _ & Hempty).
  rewrite Hi1, Hi2, (Hset "http://localhost:3000" eq_refl), Hempty; [done|by right|done].
Defined.

(** ** The analytics entrypoints *)

Lemma take_prefix {A} (n : nat) (l : list A) : take n l `prefix_of` l.
Proof. exists (drop n l). by rewrite take_drop. Qed.

(** X20.  'analytics-transactions' without a tracker returns an empty
    list.  With one, the transactions are a prefix of the list the library
    gives, in the library's order: the first [limit] of them for a
    [limit] of 0 or more (all of them when there are fewer, the first 50
    when [limit] is omitted), and all but the last [-limit] for a
    negative [limit], which the schema does not reject.  A rejection of
    the library is not caught. *)
Theorem analytics_transactions_limit {Tracker : Type} (a : Analytics Tracker)
    (windowMs limit : option Z) :
  let n := limit_or_default limit in
  match paymentTracker a with
  | None =>
      analytics_transactions_handler a windowMs n
        = inr (output (VObj [("transactions", VArr [])]))
  | Some tracker =>
      (forall e, getAllTransactions a tracker windowMs = inl e ->
                 analytics_transactions_handler a windowMs n = inl e)
      /\ (forall txs, getAllTransactions a tracker windowMs = inr (VArr txs) ->
            exists kept,
              analytics_transactions_handler a windowMs n
                = inr (output (VObj [("transactions", VArr kept)]))
              /\ kept `prefix_of` txs
              /\ (0 <= n -> length kept = Nat.min (Z.to_nat n) (length txs))
              /\ (n < 0 -> length kept = (length txs - Z.to_nat (- n))%nat)
              /\ (limit = None -> (length kept <= 50)%nat))
  end.
Proof.
  intros n. unfold analytics_transactions_handler.
  destruct (paymentTracker a) as [tracker|]; [|reflexivity].
  split; [by intros e ->|].
  intros txs ->. cbn. eexists. split; [reflexivity|].
  split; [apply take_prefix|]. rewrite length_take.
  split; [|split].
  - intros Hn. destruct (Z.ltb_spec n 0); lia.
  - intros Hn. destruct (Z.ltb_spec n 0); lia.
  - intros ->. subst n. cbn. lia.
Qed.

Lemma analytics_transactions_limit_witness :
  analytics_transactions_handler sample_analytics None (limit_or_default (Some 2))
    = inr (output (VObj [("transactions", VArr (take 2 sample_transactions))]))
  /\ analytics_transactions_handler sample_analytics None (limit_or_default (Some (-1)))
     = inr (output (VObj [("transactions", VArr (take 2 sample_transactions))]))
  /\ exists kept,
       analytics_transactions_handler sample_analytics None (limit_or_default None)
         = inr (output (VObj [("transactions", VArr kept)]))
       /\ length kept = 3%nat.
Proof.
  split; [reflexivity|]. split; [reflexivity|].
  pose proof (analytics_transactions_limit sample_analytics None None) as [_ Hsome].
  destruct (Hsome sample_transactions eq_refl) as (kept & Hrun & _ & Hlen & _).
  exists kept. split; [exact Hrun|]. rewrite Hlen; [reflexivity|]. cbn. lia.
Defined.

Lemma lookup_set_field_eq (k : string) (v : Value) (fields : list (string * Value)) :
  lookup_field k (set_field k v fields) = v.
Proof.
  induction fields as [|[k' v'] rest IH]; cbn.
  - by rewrite String.eqb_refl.
  - destruct (String.eqb_spec k' k) as [->|Hk]; cbn.
    + by rewrite String.eqb_refl.
    + by rewrite (proj2 (String.eqb_neq k' k) Hk).
Qed.

Lemma lookup_set_field_ne (k k' : string) (v : Value) (fields : list (string * Value)) :
  k <> k' -> lookup_field k' (set_field k v fields) = lookup_field k' fields.
Proof.
  intros Hne. induction fields as [|[k0 v0] rest IH]; cbn.
  - by rewrite (proj2 (String.eqb_neq k k') Hne).
  - destruct (String.eqb_spec k0 k) as [->|Hk]; cbn.
    + by rewrite (proj2 (String.eqb_neq k k') Hne).
    + by rewrite IH.
Qed.

Lemma keys_set_field (k : string) (v : Value) (fields : list (string * Value)) :
  k ∈ fields.*1 -> (set_field k v fields).*1 = fields.*1.
Proof.
  induction fields as [|[k0 v0] rest IH]; cbn; [by intros ?%elem_of_nil|].
  destruct (String.eqb_spec k0 k) as [->|Hk]; [done|].
  intros [?|Hin]%elem_of_cons; [congruence|]. cbn. by rewrite IH.
Qed.

Lemma lookup_field_key (k : string) (fields : list (string * Value)) :
  lookup_field k fields <> VUndefined -> k ∈ fields.*1.
Proof.
  induction fields as [|[k0 v0] rest IH]; cbn; [done|].
  destruct (String.eqb_spec k0 k) as [->|Hk]; intros H.
  - apply elem_of_cons. by left.
  - apply elem_of_cons. right. by apply IH.
Qed.

(** X21.  When the summary of the library holds the three totals as
    integers, 'analytics' returns the summary with the same keys in the
    same order, the three totals replaced by their decimal text and every
    other field unchanged. *)
Theorem analytics_totals_as_text {Tracker : Type} (a : Analytics Tracker)
    (tracker : Tracker) (windowMs : option Z) (summary : list (string * Value))
    (outgoing incoming net : Z) :
  paymentTracker a = Some tracker ->
  getSummary a tracker windowMs = inr summary ->
  lookup_field "outgoingTotal" summary = VNum outgoing ->
  lookup_field "incomingTotal" summary = VNum incoming ->
  lookup_field "netTotal" summary = VNum net ->
  exists fields,
    analytics_handler a windowMs = inr (output (VObj fields))
    /\ fields.*1 = summary.*1
    /\ lookup_field "outgoingTotal" fields = VStr (decimal outgoing)
    /\ lookup_field "incomingTotal" fields = VStr (decimal incoming)
    /\ lookup_field "netTotal" fields = VStr (decimal net)
    /\ forall k, k ∉ total_keys -> lookup_field k fields = lookup_field k summary.
Proof.
  intros Htr Hsum Hout Hin Hnet. unfold analytics_handler. rewrite Htr, Hsum. cbn.
  rewrite Hout, Hin, Hnet. cbn. eexists. split; [reflexivity|].
  assert (Hk : forall k z, lookup_field k summary = VNum z -> k ∈ summary.*1).
  { intros k z Hz. apply lookup_field_key. by rewrite Hz. }
  split; [|split; [|split; [|split]]].
  - rewrite keys_set_field; rewrite keys_set_field; try rewrite keys_set_field;
      try done; by eapply Hk.
  - rewrite !lookup_set_field_ne by done. apply lookup_set_field_eq.
  - rewrite lookup_set_field_ne by done. apply lookup_set_field_eq.
  - apply lookup_set_field_eq.
  - intros k Hk'. unfold total_keys in Hk'.
    rewrite !lookup_set_field_ne; [done|..]; intros <-; apply Hk';
      apply (bool_decide_unpack _); reflexivity.
Qed.

Lemma analytics_totals_as_text_witness :
  analytics_handler sample_analytics (Some 60000)
    = inr (output (VObj
        [ ("outgoingCount", VNum 0); ("outgoingTotal", VStr "0");
          ("incomingCount", VNum 3); ("incomingTotal", VStr "6000");
          ("netTotal", VStr "6000"); ("windowMs", VUndefined) ])).
Proof.
  destruct (analytics_totals_as_text sample_analytics tt (Some 60000) sample_summary
              0 6000 6000 eq_refl eq_refl eq_refl eq_refl eq_refl)
    as (fields & Hrun & _).
  rewrite Hrun. vm_compute in Hrun. injection Hrun as <-. reflexivity.
Defined.

(** ** ISO dates: the text order is the calendar order *)

Ltac zdiv := Z.div_mod_to_equations; lia.

Lemma civil_round_trip (z : Z) :
  let '(y, m, d) := Utc.civil_from_days z in Utc.days_from_civil y m d = z.
Proof.
  unfold Utc.civil_from_days, Utc.days_from_civil.
  set (z' := z + 719468). set (era := z' / 146097). set (doe := z' - era * 146097).
  set (yoe := (doe - doe / 1460 + doe / 36524 - doe / 146096) / 365).
  set (doy := doe - (365 * yoe + yoe / 4 - yoe / 100)).
  set (mp := (5 * doy + 2) / 153).
  assert (0 <= doe <= 146096) by (subst doe era; zdiv).
  assert (0 <= yoe <= 399) by (subst yoe; zdiv).
  assert (0 <= doy <= 365) by (subst doy yoe; zdiv).
  assert (0 <= mp <= 11) by (subst mp; zdiv).
  destruct (mp <? 10) eqn:Emp.
  - destruct (mp + 3 <=? 2) eqn:E1; [lia|]. destruct (2 <? mp + 3) eqn:E2; [|lia].
    replace ((yoe + era * 400) / 400) with era by zdiv.
    replace (mp + 3 - 3) with mp by lia.
    subst doy doe z'; zdiv.
  - destruct (mp - 9 <=? 2) eqn:E1; [|lia]. destruct (2 <? mp - 9) eqn:E2; [lia|].
    replace ((yoe + era * 400 + 1 - 1) / 400) with era by zdiv.
    replace (mp - 9 + 9) with mp by lia.
    subst doy doe z'; zdiv.
Qed.

Lemma civil_valid (z : Z) :
  let '(y, m, d) := Utc.civil_from_days z in
  1 <= m <= 12 /\ 1 <= d <= Utc.days_in_month y m.
Proof.
  unfold Utc.civil_from_days, Utc.days_in_month, Utc.is_leap.
  set (z' := z + 719468). set (era := z' / 146097). set (doe := z' - era * 146097).
  set (yoe := (doe - doe / 1460 + doe / 36524 - doe / 146096) / 365).
  set (doy := doe - (365 * yoe + yoe / 4 - yoe / 100)).
  set (mp := (5 * doy + 2) / 153).
  assert (0 <= doe <= 146096) by (subst doe era; zdiv).
  assert (0 <= yoe <= 399) by (subst yoe; zdiv).
  assert (0 <= doy <= 365) by (subst doy yoe; zdiv).
  assert (0 <= mp <= 11) by (subst mp; zdiv).
  assert (Hleap : doy = 365 ->
            (yoe + 1) mod 4 = 0 /\ ((yoe + 1) mod 100 <> 0 \/ yoe = 399)).
  { subst doy yoe. zdiv. }
  destruct (mp <? 10) eqn:Emp.
  - destruct (mp + 3 <=? 2) eqn:E1; [lia|].
    split; [lia|]. split; [subst mp; zdiv|].
    destruct (mp + 3 =? 2) eqn:E2; [lia|].
    destruct ((mp + 3 =? 4) || (mp + 3 =? 6) || (mp + 3 =? 9) || (mp + 3 =? 11)) eqn:E3;
      subst mp; zdiv.
  - destruct (mp - 9 <=? 2) eqn:E1; [|lia].
    split; [lia|]. split; [subst mp; zdiv|].
    destruct (mp - 9 =? 2) eqn:E2.
    + assert (mp = 11) by lia.
      replace ((yoe + era * 400 + 1) mod 4) with ((yoe + 1) mod 4) by zdiv.
      replace ((yoe + era * 400 + 1) mod 100) with ((yoe + 1) mod 100) by zdiv.
      replace ((yoe + era * 400 + 1) mod 400) with ((yoe + 1) mod 400) by zdiv.
      destruct ((yoe + 1) mod 4 =? 0) eqn:E4; destruct ((yoe + 1) mod 100 =? 0) eqn:E100;
        destruct ((yoe + 1) mod 400 =? 0) eqn:E400; cbn [andb orb negb];
        subst mp; zdiv.
    + destruct ((mp - 9 =? 4) || (mp - 9 =? 6) || (mp - 9 =? 9) || (mp - 9 =? 11)) eqn:E3;
        [lia|].
      subst mp; zdiv.
Qed.

Lemma days_in_month_31 (y m : Z) : Utc.days_in_month y m <= 31.
Proof.
  unfold Utc.days_in_month.
  destruct (m =? 2); [destruct (Utc.is_leap y)|destruct (_ || _)]; lia.
Qed.

Lemma days_later_year (y m d y' m' d' : Z) :
  1 <= m <= 12 -> 1 <= d <= Utc.days_in_month y m -> 1 <= m' <= 12 -> 1 <= d' ->
  y < y' -> Utc.days_from_civil y m d < Utc.days_from_civil y' m' d'.
Proof.
  intros Hm Hd Hm' Hd' Hy. pose proof (days_in_month_31 y m) as Hd31.
  assert (d <= 31) by lia. clear Hd Hd31. unfold Utc.days_from_civil.
  destruct (m <=? 2) eqn:Em; destruct (2 <? m) eqn:Em2; try lia;
    destruct (m' <=? 2) eqn:En; destruct (2 <? m') eqn:En2; try lia; zdiv.
Qed.

Lemma days_later_month (y m n d e : Z) :
  1 <= m < n -> n <= 12 -> 1 <= d <= Utc.days_in_month y m -> 1 <= e ->
  Utc.days_from_civil y m d < Utc.days_from_civil y n e.
Proof.
  intros Hm Hn Hd He.
  assert (m = 1 \/ m = 2 \/ m = 3 \/ m = 4 \/ m = 5 \/ m = 6 \/ m = 7 \/ m = 8
          \/ m = 9 \/ m = 10 \/ m = 11) as Hcases by lia.
  unfold Utc.days_in_month in Hd.
  destruct Hcases as [->|[->|Hcases]].
  - unfold Utc.days_from_civil.
    cbn [Z.leb Z.ltb Z.compare Pos.compare Pos.compare_cont Z.eqb Pos.eqb orb] in *.
    destruct (n <=? 2) eqn:En; destruct (2 <? n) eqn:En2; zdiv.
  - unfold Utc.is_leap in Hd. cbn [Z.eqb Pos.eqb] in Hd.
    unfold Utc.days_from_civil.
    assert ((2 <? n) = true) as -> by lia. assert ((n <=? 2) = false) as -> by lia.
    cbn [Z.leb Z.ltb Z.compare Pos.compare Pos.compare_cont].
    destruct (y mod 4 =? 0) eqn:E4; destruct (y mod 100 =? 0) eqn:E100;
      destruct (y mod 400 =? 0) eqn:E400; cbn [andb orb negb] in Hd; zdiv.
  - unfold Utc.days_from_civil.
    assert ((2 <? n) = true) as -> by lia. assert ((n <=? 2) = false) as -> by lia.
    repeat (destruct Hcases as [->|Hcases]); try subst m;
      cbn [Z.leb Z.ltb Z.compare Pos.compare Pos.compare_cont Z.eqb Pos.eqb orb] in *; zdiv.
Qed.

Lemma days_later_day (y m d e : Z) :
  d < e -> Utc.days_from_civil y m d < Utc.days_from_civil y m e.
Proof. unfold Utc.days_from_civil. lia. Qed.

(** For calendar dates, the order of the keys YYYYMMDD is the order of the
    day numbers. *)
Lemma date_key_order (y m d y' m' d' : Z) :
  1 <= m <= 12 -> 1 <= d <= Utc.days_in_month y m ->
  1 <= m' <= 12 -> 1 <= d' <= Utc.days_in_month y' m' ->
  date_key y m d <= date_key y' m' d'
  <-> Utc.days_from_civil y m d <= Utc.days_from_civil y' m' d'.
Proof.
  intros Hm Hd Hm' Hd'. unfold date_key.
  pose proof (days_in_month_31 y m). pose proof (days_in_month_31 y' m').
  destruct (Z.lt_trichotomy y y') as [Hy|[<-|Hy]].
  - pose proof (days_later_year y m d y' m' d'). split; lia.
  - destruct (Z.lt_trichotomy m m') as [Hmm|[<-|Hmm]].
    + pose proof (days_later_month y m m' d d'). split; lia.
    + destruct (Z.lt_trichotomy d d') as [Hdd|[<-|Hdd]].
      * pose proof (days_later_day y m d d'). split; lia.
      * split; lia.
      * pose proof (days_later_day y m d' d). split; lia.
    + pose proof (days_later_month y m' m d' d). split; lia.
  - pose proof (days_later_year y' m' d' y m d). split; lia.
Qed.

Lemma range_check (f : Z -> bool) (n : Z) :
  forallb f (Z.of_nat <$> seq 0 (Z.to_nat n)) = true ->
  forall z, 0 <= z < n -> f z = true.
Proof.
  intros Hall z Hz. rewrite forallb_forall in Hall. apply Hall.
  apply in_map_iff. exists (Z.to_nat z). split; [lia|]. apply in_seq. lia.
Qed.

Lemma pad4_closed (n : Z) :
  0 <= n <= 9999 ->
  Utc.pad 4 n
    = String (digit_char (n / 1000)) (String (digit_char (n / 100 mod 10))
        (String (digit_char (n / 10 mod 10)) (String (digit_char (n mod 10)) EmptyString))).
Proof.
  intros Hn. apply String.eqb_eq. change (pad4_digits n = true).
  apply (range_check pad4_digits 10000); [vm_compute; reflexivity | lia].
Qed.

Lemma pad2_closed (n : Z) :
  0 <= n <= 99 ->
  Utc.pad 2 n = String (digit_char (n / 10)) (String (digit_char (n mod 10)) EmptyString).
Proof.
  intros Hn. apply String.eqb_eq. change (pad2_digits n = true).
  apply (range_check pad2_digits 100); [vm_compute; reflexivity | lia].
Qed.

Lemma digit_cases (v : Z) :
  0 <= v <= 9 ->
  v = 0 \/ v = 1 \/ v = 2 \/ v = 3 \/ v = 4 \/ v = 5 \/ v = 6 \/ v = 7 \/ v = 8 \/ v = 9.
Proof. lia. Qed.

Ltac each_digit H :=
  apply digit_cases in H;
  destruct H as [->|[->|[->|[->|[->|[->|[->|[->|[->| ->]]]]]]]]].

Lemma digit_char_digit (v : Z) : 0 <= v <= 9 -> Utc.digit (digit_char v) = Some v.
Proof. intros Hv. each_digit Hv; reflexivity. Qed.

Lemma digit_char_not_T (v : Z) : 0 <= v <= 9 -> Ascii.eqb (digit_char v) "T" = false.
Proof. intros Hv. each_digit Hv; reflexivity. Qed.

Lemma digit_char_compare (v v' : Z) :
  0 <= v <= 9 -> 0 <= v' <= 9 ->
  Ascii.compare (digit_char v) (digit_char v') = (v ?= v').
Proof. intros Hv Hv'. each_digit Hv; each_digit Hv'; reflexivity. Qed.

Lemma digit_of_char (c : ascii) (v : Z) :
  Utc.digit c = Some v -> 0 <= v <= 9 /\ c = digit_char v.
Proof.
  unfold Utc.digit, digit_char.
  destruct ((48 <=? nat_of_ascii c)%nat && (nat_of_ascii c <=? 57)%nat) eqn:Hc; [|done].
  apply andb_true_iff in Hc as [H1%Nat.leb_le H2%Nat.leb_le]. intros [= <-].
  split; [lia|].
  replace (Z.to_nat (48 + (Z.of_nat (nat_of_ascii c) - 48))) with (nat_of_ascii c) by lia.
  by rewrite ascii_nat_embedding.
Qed.

Lemma compare_step (a a' r r' b : Z) :
  0 <= r < b -> 0 <= r' < b ->
  match a ?= a' with
  | Eq => r ?= r'
  | c => c
  end = (a * b + r ?= a' * b + r').
Proof.
  intros Hr Hr'. destruct (Z.compare_spec a a') as [->|H|H].
  - destruct (Z.compare_spec r r'); symmetry;
      [apply Z.compare_eq_iff | apply Z.compare_lt_iff | apply Z.compare_gt_iff]; lia.
  - symmetry. apply Z.compare_lt_iff. nia.
  - symmetry. apply Z.compare_gt_iff. nia.
Qed.

(** Two dates written YYYY-MM-DD compare as strings the way their keys
    YYYYMMDD compare as numbers. *)
Lemma date_text_compare (y m d y' m' d' : Z) :
  0 <= y <= 9999 -> 0 <= m <= 99 -> 0 <= d <= 99 ->
  0 <= y' <= 9999 -> 0 <= m' <= 99 -> 0 <= d' <= 99 ->
  String.compare (date_text y m d) (date_text y' m' d')
    = (date_key y m d ?= date_key y' m' d').
Proof.
  intros Hy Hm Hd Hy' Hm' Hd'. unfold date_text. cbn [String.compare].
  change (Ascii.compare "-" "-") with Eq. cbv iota.
  rewrite !digit_char_compare by zdiv.
  set (a1 := y / 1000). set (a2 := y / 100 mod 10). set (a3 := y / 10 mod 10).
  set (a4 := y mod 10). set (b1 := m / 10). set (b2 := m mod 10).
  set (c1 := d / 10). set (c2 := d mod 10).
  set (a1' := y' / 1000). set (a2' := y' / 100 mod 10). set (a3' := y' / 10 mod 10).
  set (a4' := y' mod 10). set (b1' := m' / 10). set (b2' := m' mod 10).
  set (c1' := d' / 10). set (c2' := d' mod 10).
  assert (0 <= a1 <= 9 /\ 0 <= a2 <= 9 /\ 0 <= a3 <= 9 /\ 0 <= a4 <= 9
          /\ 0 <= b1 <= 9 /\ 0 <= b2 <= 9 /\ 0 <= c1 <= 9 /\ 0 <= c2 <= 9)
    as (? & ? & ? & ? & ? & ? & ? & ?) by (subst a1 a2 a3 a4 b1 b2 c1 c2; zdiv).
  assert (0 <= a1' <= 9 /\ 0 <= a2' <= 9 /\ 0 <= a3' <= 9 /\ 0 <= a4' <= 9
          /\ 0 <= b1' <= 9 /\ 0 <= b2' <= 9 /\ 0 <= c1' <= 9 /\ 0 <= c2' <= 9)
    as (? & ? & ? & ? & ? & ? & ? & ?) by (subst a1' a2' a3' a4' b1' b2' c1' c2'; zdiv).
  assert (date_key y m d
          = a1 * 10000000 + (a2 * 1000000 + (a3 * 100000 + (a4 * 10000
              + (b1 * 1000 + (b2 * 100 + (c1 * 10 + c2))))))) as ->
    by (unfold date_key; subst a1 a2 a3 a4 b1 b2 c1 c2; zdiv).
  assert (date_key y' m' d'
          = a1' * 10000000 + (a2' * 1000000 + (a3' * 100000 + (a4' * 10000
              + (b1' * 1000 + (b2' * 100 + (c1' * 10 + c2'))))))) as ->
    by (unfold date_key; subst a1' a2' a3' a4' b1' b2' c1' c2'; zdiv).
  clearbody a1 a2 a3 a4 b1 b2 c1 c2 a1' a2' a3' a4' b1' b2' c1' c2'.
  assert (Hlast : match c2 ?= c2' with Eq => Eq | c => c end = (c2 ?= c2'))
    by by destruct (c2 ?= c2').
  rewrite Hlast.
  rewrite (compare_step c1 c1' c2 c2' 10) by lia.
  rewrite (compare_step b2 b2' _ _ 100) by lia.
  rewrite (compare_step b1 b1' _ _ 1000) by lia.
  rewrite (compare_step a4 a4' _ _ 10000) by lia.
  rewrite (compare_step a3 a3' _ _ 100000) by lia.
  rewrite (compare_step a2 a2' _ _ 1000000) by lia.
  rewrite (compare_step a1 a1' _ _ 10000000) by lia.
  reflexivity.
Qed.

Lemma dash_char (c : ascii) {A} (x y : A) :
  (if Ascii.eqb c "-" then x else y)
  = match c with
    | "-"%char => x
    | _ => y
    end.
Proof. destruct c as [[] [] [] [] [] [] [] []]; reflexivity. Qed.

(** A text [Utc.parse_date] accepts is a calendar date written
    YYYY-MM-DD, and its value is the first millisecond of that day. *)
Lemma parse_date_text (s : string) (ms : Z) :
  Utc.parse_date s = Some ms ->
  exists y m d,
    s = date_text y m d
    /\ 0 <= y <= 9999 /\ 1 <= m <= 12 /\ 1 <= d <= Utc.days_in_month y m
    /\ ms = Utc.days_from_civil y m d * ms_per_day.
Proof.
  unfold Utc.parse_date.
  remember (list_ascii_of_string s) as l eqn:Hl.
  assert (s = string_of_list_ascii l) as ->
    by (subst l; symmetry; apply string_of_list_ascii_of_string).
  clear Hl. destruct l
    as [|y1 [|y2 [|y3 [|y4 [|h1 [|m1 [|m2 [|h2 [|d1 [|d2 [|? ?]]]]]]]]]]];
    try discriminate;
    try (destruct h1 as [[] [] [] [] [] [] [] []]; discriminate);
    try (destruct h1 as [[] [] [] [] [] [] [] []]; try discriminate;
         destruct h2 as [[] [] [] [] [] [] [] []]; discriminate).
  destruct h1 as [[] [] [] [] [] [] [] []]; try discriminate.
  destruct h2 as [[] [] [] [] [] [] [] []]; try discriminate.
  cbn [Utc.digits mbind option_bind].
  destruct (Utc.digit y1) as [a1|] eqn:Ha1; [|discriminate].
  destruct (Utc.digit y2) as [a2|] eqn:Ha2; [|discriminate].
  destruct (Utc.digit y3) as [a3|] eqn:Ha3; [|discriminate].
  destruct (Utc.digit y4) as [a4|] eqn:Ha4; [|discriminate].
  destruct (Utc.digit m1) as [b1|] eqn:Hb1; [|discriminate].
  destruct (Utc.digit m2) as [b2|] eqn:Hb2; [|discriminate].
  destruct (Utc.digit d1) as [c1|] eqn:Hc1; [|discriminate].
  destruct (Utc.digit d2) as [c2|] eqn:Hc2; [|discriminate].
  cbn [mbind option_bind].
  apply digit_of_char in Ha1 as [? ->], Ha2 as [? ->], Ha3 as [? ->], Ha4 as [? ->].
  apply digit_of_char in Hb1 as [? ->], Hb2 as [? ->], Hc1 as [? ->], Hc2 as [? ->].
  set (y := 10 * (10 * (10 * (10 * 0 + a1) + a2) + a3) + a4).
  set (m := 10 * (10 * 0 + b1) + b2). set (d := 10 * (10 * 0 + c1) + c2).
  destruct ((1 <=? m) && (m <=? 12) && (1 <=? d) && (d <=? Utc.days_in_month y m)) eqn:Hv;
    [|discriminate].
  intros [= <-]. exists y, m, d.
  apply andb_true_iff in Hv as [Hv Hd2%Z.leb_le].
  apply andb_true_iff in Hv as [Hv Hd1%Z.leb_le].
  apply andb_true_iff in Hv as [Hm1%Z.leb_le Hm2%Z.leb_le].
  split; [|subst y; lia].
  unfold date_text. cbn [string_of_list_ascii].
  replace (y / 1000) with a1 by (subst y; zdiv).
  replace (y / 100 mod 10) with a2 by (subst y; zdiv).
  replace (y / 10 mod 10) with a3 by (subst y; zdiv).
  replace (y mod 10) with a4 by (subst y; zdiv).
  replace (m / 10) with b1 by (subst m; zdiv).
  replace (m mod 10) with b2 by (subst m; zdiv).
  replace (d / 10) with c1 by (subst d; zdiv).
  replace (d mod 10) with c2 by (subst d; zdiv).
  reflexivity.
Qed.

Lemma before_first_digit (v : Z) (s : string) :
  0 <= v <= 9 ->
  before_first "T" (String (digit_char v) s) = String (digit_char v) (before_first "T" s).
Proof. intros Hv. cbn [before_first]. by rewrite digit_char_not_T. Qed.

Lemma before_first_dash (s : string) :
  before_first "T" (String "-" s) = String "-" (before_first "T" s).
Proof. reflexivity. Qed.

(** Up to the year 9999, the text before the [T] of an ISO instant is
    the date of its UTC day, written YYYY-MM-DD. *)
Lemma today_text (t : Z) :
  0 <= t <= last_four_digit_instant ->
  exists y m d,
    Utc.civil_from_days (t / ms_per_day) = (y, m, d)
    /\ before_first "T" (Utc.iso_string t) = date_text y m d
    /\ 1970 <= y <= 9999.
Proof.
  intros Ht. unfold last_four_digit_instant in Ht.
  assert (0 <= t / ms_per_day <= 2932896) as Hz by (unfold ms_per_day; zdiv).
  pose proof (civil_round_trip (t / ms_per_day)) as Hrt.
  pose proof (civil_valid (t / ms_per_day)) as Hvalid.
  unfold Utc.iso_string.
  destruct (Utc.civil_from_days (t / ms_per_day)) as [[y m] d].
  destruct Hvalid as [Hm Hd]. pose proof (days_in_month_31 y m) as Hd31.
  assert (1970 <= y <= 9999) as Hy.
  { split.
    - destruct (Z.le_gt_cases 1970 y) as [|Hlt]; [done|].
      pose proof (days_later_year y m d 1970 1 1 Hm Hd ltac:(lia) ltac:(lia) Hlt) as H.
      change (Utc.days_from_civil 1970 1 1) with 0 in H. lia.
    - destruct (Z.le_gt_cases y 9999) as [|Hgt]; [done|].
      pose proof (days_later_year 9999 12 31 y m d ltac:(lia) ltac:(done) Hm ltac:(lia) Hgt)
        as H.
      change (Utc.days_from_civil 9999 12 31) with 2932896 in H. lia. }
  exists y, m, d. split; [reflexivity|]. split; [|exact Hy].
  unfold Utc.iso_year.
  assert ((0 <=? y) && (y <=? 9999) = true) as -> by lia.
  rewrite pad4_closed, (pad2_closed m), (pad2_closed d) by lia.
  cbv beta iota fix delta [String.append].
  rewrite !before_first_digit by zdiv. rewrite before_first_dash.
  rewrite !before_first_digit by zdiv. rewrite before_first_dash.
  rewrite !before_first_digit by zdiv. reflexivity.
Qed.

(** X22.  For a server in UTC and an instant up to the year 9999, the
    text comparison of 'full-report' is the calendar comparison: a date
    written YYYY-MM-DD passes [h.date >= today] exactly when its midnight
    is not before the midnight that began the current UTC day. *)
Theorem iso_date_filter_is_calendar (now ms : Z) (s : string) :
  0 <= now <= last_four_digit_instant ->
  Utc.parse_date s = Some ms ->
  js_ge utc_runtime (VStr s) (before_first "T" (toISOString utc_runtime now)) = true
  <-> now / 86400000 * 86400000 <= ms.
Proof.
  intros Hnow Hs.
  destruct (parse_date_text s ms Hs) as (y & m & d & -> & Hy & Hm & Hd & ->).
  destruct (today_text now Hnow) as (y0 & m0 & d0 & Hciv & Htoday & Hy0).
  pose proof (civil_round_trip (now / ms_per_day)) as Hrt.
  pose proof (civil_valid (now / ms_per_day)) as Hvalid.
  rewrite Hciv in Hrt, Hvalid. destruct Hvalid as [Hm0 Hd0].
  pose proof (days_in_month_31 y m). pose proof (days_in_month_31 y0 m0).
  cbn [js_ge toISOString utc_runtime]. rewrite Htoday.
  unfold String.ltb. rewrite date_text_compare by lia.
  pose proof (date_key_order y0 m0 d0 y m d Hm0 Hd0 Hm Hd) as Horder.
  rewrite Hrt in Horder. change 86400000 with ms_per_day.
  destruct (Z.compare_spec (date_key y m d) (date_key y0 m0 d0)) as [Heq|Hlt|Hgt]; cbn.
  - split; [|done]. intros _. unfold ms_per_day. apply Z.mul_le_mono_nonneg_r; [lia|].
    apply Horder. lia.
  - split; [done|]. intros Hle. unfold ms_per_day in Hle.
    assert (now / (1000 * 60 * 60 * 24) <= Utc.days_from_civil y m d) as Hle' by lia.
    apply Horder in Hle'. lia.
  - split; [|done]. intros _. unfold ms_per_day. apply Z.mul_le_mono_nonneg_r; [lia|].
    apply Horder. lia.
Qed.

Lemma iso_date_filter_is_calendar_witness :
  js_ge utc_runtime (VStr "2026-11-02")
    (before_first "T" (toISOString utc_runtime monday_morning)) = true
  /\ js_ge utc_runtime (VStr "2026-11-01")
       (before_first "T" (toISOString utc_runtime monday_morning)) = false.
Proof.
  split.
  - apply (iso_date_filter_is_calendar monday_morning 1793577600000 "2026-11-02");
      [unfold monday_morning, last_four_digit_instant; lia | reflexivity
      | unfold monday_morning; zdiv].
  - apply not_true_is_false. intros H.
    apply (iso_date_filter_is_calendar monday_morning 1793491200000 "2026-11-01") in H;
      [unfold monday_morning in H; revert H; zdiv
      | unfold monday_morning, last_four_digit_instant; lia | reflexivity].
Defined.

(** X23.  For a server in UTC and a request up to the year 9999: in the
    output of 'full-report', an upcoming holiday whose date is written
    YYYY-MM-DD does not lie before the UTC day of the request.  If the
    clock reading made for the entry falls on the same UTC day as the
    reading that gave [today], its [daysUntil] is not negative, and is 0
    exactly for a holiday on that very day. *)
Theorem full_report_iso_dates_not_past (w : World) (input : FullReportInput)
    (out : Value) (t : Trace) :
  full_report_handler utc_runtime w input start = (inr out, t) ->
  0 <= clock w 1 <= last_four_digit_instant ->
  exists ups,
    upcomingHolidays_of out = VArr ups
    /\ forall i e s ms,
         ups !! i = Some e ->
         field "date" e = VStr s ->
         Utc.parse_date s = Some ms ->
         utc_midnight (clock w 1) <= ms
         /\ exists n,
              field "daysUntil" e = VNum n
              /\ (clock w (2 + i) / 86400000 = clock w 1 / 86400000 ->
                  0 <= n /\ (n = 0 <-> ms = utc_midnight (clock w 1))).
Proof.
  intros Hrun Hclock.
  destruct (full_report_inv _ _ _ _ _ Hrun) as (_ & hs' & _ & Hhol' & _ & Hall).
  destruct (full_report_upcoming _ _ _ _ _ Hrun) as (hs & Hhol & Hups).
  assert (hs' = hs) as -> by congruence. clear Hhol'.
  eexists. split; [exact Hups|].
  intros i e s ms Hi Hdate Hs.
  unfold upcoming_of in Hi. rewrite list_lookup_imap in Hi.
  destruct (take 5 _ !! i) as [h|] eqn:Hh; [|done]. injection Hi as <-.
  rewrite entry_of_date in Hdate.
  apply lookup_take_Some in Hh as [Hh _].
  apply list_elem_of_lookup_2, list_elem_of_In, filter_In in Hh as [_ Hge].
  rewrite Hdate in Hge. unfold today_of in Hge.
  apply (iso_date_filter_is_calendar _ ms s Hclock Hs) in Hge.
  split; [exact Hge|].
  rewrite entry_of_daysUntil, Hdate. unfold days_until.
  change (Date_getTime utc_runtime (VStr s)) with (Utc.parse_date s). rewrite Hs.
  eexists. split; [reflexivity|]. intros Hday.
  destruct (parse_date_text s ms Hs) as (y & m & d & _ & _ & _ & _ & Hms).
  pose proof (ceil_div_bounds (ms - clock w (2 + i)) ms_per_day ltac:(reflexivity)) as Hb.
  unfold utc_midnight. change ms_per_day with 86400000 in *.
  change (clock w (S (S i))) with (clock w (2 + i)).
  set (n := ceil_div (ms - clock w (2 + i)) 86400000) in *.
  clearbody n. split; [zdiv|]. split; intros H; zdiv.
Qed.

Lemma full_report_iso_dates_not_past_witness :
  exists out t ups,
    full_report_handler utc_runtime today_world new_york_us start = (inr out, t)
    /\ upcomingHolidays_of out = VArr ups
    /\ field "daysUntil" <$> ups = [VNum 0; VNum 53].
Proof.
  assert (Hrun : exists out t,
            full_report_handler utc_runtime today_world new_york_us start = (inr out, t)).
  { eexists _, _. vm_compute. reflexivity. }
  destruct Hrun as (out & t & Hrun).
  destruct (full_report_iso_dates_not_past today_world new_york_us out t Hrun)
    as (ups & Hups & _).
  { cbn. unfold monday_morning, last_four_digit_instant. lia. }
  exists out, t, ups. split; [exact Hrun|]. split; [exact Hups|].
  vm_compute in Hrun. injection Hrun as <- _. vm_compute in Hups. by injection Hups as <-.
Defined.

Lemma toString_nullish (v : Value) :
  is_nullish v = true -> exists what, toString v = inl (TypeError what).
Proof. destruct v; try discriminate; intros _; by eexists. Qed.

Lemma toString_throws (v : Value) (e : Thrown) :
  toString v = inl e -> exists what, e = TypeError what.
Proof.
  destruct v; cbn; try discriminate; try (intros [= <-]; by eexists).
  destruct (is_nullish _); [discriminate|]. intros [= <-]. by eexists.
Qed.

(** X24.  When the summary of the library lacks one of the three totals,
    or holds [null] there, 'analytics' throws a TypeError: it returns no
    part of the summary. *)
Theorem analytics_needs_all_totals {Tracker : Type} (a : Analytics Tracker)
    (tracker : Tracker) (windowMs : option Z) (summary : list (string * Value)) (k : string) :
  paymentTracker a = Some tracker ->
  getSummary a tracker windowMs = inr summary ->
  k ∈ total_keys ->
  is_nullish (lookup_field k summary) = true ->
  exists what, analytics_handler a windowMs = inl (TypeError what).
Proof.
  intros Htr Hsum Hk Hnull. unfold analytics_handler. rewrite Htr, Hsum. cbn.
  destruct (toString (lookup_field "outgoingTotal" summary)) as [e|o] eqn:Ho; cbn.
  { apply toString_throws in Ho as [what ->]. by eexists. }
  destruct (toString (lookup_field "incomingTotal" summary)) as [e|i] eqn:Hi; cbn.
  { apply toString_throws in Hi as [what ->]. by eexists. }
  destruct (toString (lookup_field "netTotal" summary)) as [e|n] eqn:Hn; cbn.
  { apply toString_throws in Hn as [what ->]. by eexists. }
  unfold total_keys in Hk.
  repeat (apply elem_of_cons in Hk as [->|Hk];
          [apply toString_nullish in Hnull as [what Hwhat]; congruence|]).
  by apply elem_of_nil in Hk.
Qed.

Lemma analytics_needs_all_totals_witness :
  exists what,
    analytics_handler
      {| paymentTracker := Some tt;
         getSummary := fun _ _ => inr [("outgoingTotal", VNum 0); ("incomingTotal", VNum 5)];
         getAllTransactions := fun _ _ => inr (VArr []);
         exportToCSV := fun _ _ => inr (VStr "") |} None
    = inl (TypeError what).
Proof.
  apply (analytics_needs_all_totals _ tt None
           [("outgoingTotal", VNum 0); ("incomingTotal", VNum 5)] "netTotal");
    [reflexivity | reflexivity | apply (bool_decide_unpack _); reflexivity | reflexivity].
Defined.
